(** * The LLM communication tracker of [shared/llm_communication_tracker.py]

    A shallow embedding of the tracker (the record store, the active-session
    index, the cost model, the statistics, the error classifier and the two
    framework wrappers) and the properties of it that the specification
    states.

    Conventions of the embedding.
    - A Python [int] is a [Z]; a Python [float] is a binary64 primitive
      float; [Optional[T]] is [option T]; [str] is [string].
    - [self.communications] is an insertion-ordered dictionary (iteration
      order is observable in the statistics and in the lists the read
      methods return): an association list, see [odict].  [self.active_sessions] is only looked
      up, updated, deleted from and counted: a [gmap].
    - The tracker methods run under [self._lock]; each is one atomic
      transition of the tracker state.  What a method reads from the
      environment ([datetime.now()], [time.time()], [uuid.uuid4()]) is an
      argument of its embedding.
    - A Python exception is a value of [PyException]; a computation that can
      raise returns a [result]. *)

From Stdlib Require Import ZArith Floats Ascii String.
From stdpp Require Import gmap strings list sorting.

#[local] Set Warnings "-inexact-float".
#[local] Open Scope Z_scope.

(** ** Python values *)

Record PyException := {
  exc_class : string;
  (** [str(exception)] *)
  exc_message : string;
  (** the [status_code] attribute, when the exception has one *)
  exc_status_code : option Z;
  (** the [retry_count] attribute, when the exception has one *)
  exc_retry_count : option Z
}.

Definition ZeroDivisionError : PyException :=
  {| exc_class := "ZeroDivisionError"; exc_message := "division by zero";
     exc_status_code := None; exc_retry_count := None |}.

Definition OverflowError : PyException :=
  {| exc_class := "OverflowError";
     exc_message := "integer division result too large for a float";
     exc_status_code := None; exc_retry_count := None |}.

Definition ValueError (msg : string) : PyException :=
  {| exc_class := "ValueError"; exc_message := msg;
     exc_status_code := None; exc_retry_count := None |}.

Definition TypeError (msg : string) : PyException :=
  {| exc_class := "TypeError"; exc_message := msg;
     exc_status_code := None; exc_retry_count := None |}.

Inductive result (A : Type) : Type :=
| Ok (a : A)
| Raise (e : PyException).
Arguments Ok {A} a.
Arguments Raise {A} e.

#[global] Instance result_ret : MRet result := fun A a => Ok a.
#[global] Instance result_bind : MBind result := fun A B f m =>
  match m with
  | Ok a => f a
  | Raise e => Raise e
  end.

(** [n.bit_length()] *)
Definition bit_length (n : Z) : Z :=
  if n =? 0 then 0 else Z.log2 (Z.abs n) + 1.

(** [a / b] on two ints: the quotient correctly rounded to the nearest
    binary64 (ties to even), [ZeroDivisionError] for [b = 0] and
    [OverflowError] when the rounded quotient is out of the float range.
    The quotient is first taken with at least 55 significant bits and a
    sticky bit, which rounds like the exact quotient does. *)
Definition py_truediv (a b : Z) : result float :=
  if b =? 0 then Raise ZeroDivisionError
  else
    let negate := xorb (a <? 0) (b <? 0) in
    let x := Z.abs a in
    let y := Z.abs b in
    let shift := Z.max 0 (55 + bit_length y - bit_length x) in
    let q := (x * 2 ^ shift) / y in
    let sticky := if (x * 2 ^ shift) mod y =? 0 then 0 else 1 in
    let m := 2 * q + sticky in
    match binary_normalize prec emax (if negate then - m else m)
                           (- shift - 1) negate with
    | S754_infinity _ => Raise OverflowError
    | sf => Ok (SF2Prim sf)
    end.

(** [int(x)] on a float: truncation towards zero. *)
Definition py_int (x : float) : result Z :=
  match Prim2SF x with
  | S754_zero _ => Ok 0
  | S754_finite s m e =>
      let v := if 0 <=? e then Z.pos m * 2 ^ e else Z.pos m / 2 ^ (- e) in
      Ok (if s then - v else v)
  | S754_infinity _ =>
      Raise {| exc_class := "OverflowError";
               exc_message := "cannot convert float infinity to integer";
               exc_status_code := None; exc_retry_count := None |}
  | S754_nan => Raise (ValueError "cannot convert float NaN to integer")
  end.

(** [sum(xs)] over ints. *)
Definition sum_int (xs : list Z) : Z := fold_left Z.add xs 0.

(** [sum(xs)] over floats, added from the left starting at the int [0]
    (an interpreter that sums floats with compensation, CPython from 3.12
    on, can differ from this in the last bits). *)
Definition sum_float (xs : list float) : float :=
  fold_left PrimFloat.add xs 0%float.

(** [len(xs)] *)
Definition len {A} (xs : list A) : Z := Z.of_nat (length xs).

(** [sub in s] on strings *)
Fixpoint contains (sub s : string) : bool :=
  String.prefix sub s ||
  match s with
  | EmptyString => false
  | String _ s' => contains sub s'
  end.

(** [s.lower()] is the interpreter's; the classifier is embedded over any
    lowering function and evaluated with the ASCII one. *)
Class StrLower := str_lower : string -> string.

Definition ascii_lower_char (c : ascii) : ascii :=
  let n := N_of_ascii c in
  if ((65 <=? n) && (n <=? 90))%N then ascii_of_N (n + 32) else c.

Fixpoint ascii_lower (s : string) : string :=
  match s with
  | EmptyString => EmptyString
  | String c s' => String (ascii_lower_char c) (ascii_lower s')
  end.

#[global] Instance ascii_StrLower : StrLower := ascii_lower.

(** ** Insertion-ordered dictionaries

    [d[k] = v] keeps the position of a key that is present and appends a
    new key; [del d[k]] removes the key; iteration follows the list. *)
Section odict.
Context {K : Type} `{EqDecision K} {V : Type}.

Definition odict := list (K * V).

Fixpoint odict_get (k : K) (d : odict) : option V :=
  match d with
  | [] => None
  | (k', v) :: d' => if decide (k = k') then Some v else odict_get k d'
  end.

Fixpoint odict_set (k : K) (v : V) (d : odict) : odict :=
  match d with
  | [] => [(k, v)]
  | (k', v') :: d' =>
      if decide (k = k') then (k, v) :: d' else (k', v') :: odict_set k v d'
  end.

Definition odict_del (k : K) (d : odict) : odict :=
  List.filter (fun kv => negb (bool_decide (k = kv.1))) d.

Definition odict_values (d : odict) : list V := List.map snd d.

Definition odict_keys (d : odict) : list K := List.map fst d.
End odict.
Arguments odict K V : clear implicits.

(** ** Data model *)

Inductive LLMProvider := OPENAI | AZURE_OPENAI | ANTHROPIC | HUGGINGFACE.

Inductive AgentFramework := AUTOGEN | CREWAI | CUSTOM.

#[global] Instance LLMProvider_eq_dec : EqDecision LLMProvider.
Proof. solve_decision. Defined.

#[global] Instance AgentFramework_eq_dec : EqDecision AgentFramework.
Proof. solve_decision. Defined.

(** [framework.value] *)
Definition framework_value (f : AgentFramework) : string :=
  match f with
  | AUTOGEN => "autogen"
  | CREWAI => "crewai"
  | CUSTOM => "custom"
  end.

(** [for framework in AgentFramework], in definition order *)
Definition all_frameworks : list AgentFramework := [AUTOGEN; CREWAI; CUSTOM].

(** A call descriptor is a dictionary; the tracker reads its ["name"]. *)
Abbreviation pydict := (gmap string string).

(** An entry of [tool_calls]: a dictionary whose ["function"] entry, when
    present, is a call descriptor. *)
Record ToolCall := {
  tc_id : option string;
  tc_type : option string;
  tc_function : option pydict
}.

Module LLMMessage.
Record t := mk {
  id : string;
  timestamp : Z;
  role : string;
  content : string;
  tokens : option Z;
  function_call : option pydict;
  tool_calls : option (list ToolCall)
}.
End LLMMessage.

Module LLMCommunication.
Record t := mk {
  id : string;
  agent_id : string;
  agent_name : string;
  agent_specialty : string;
  framework : AgentFramework;
  provider : LLMProvider;
  model : string;
  (** set by [__post_init__] when the record is built *)
  session_start : Z;
  session_end : option Z;
  patient_id : option string;
  patient_name : option string;
  scenario_type : string;
  messages : list LLMMessage.t;
  system_prompt : option string;
  total_input_tokens : Z;
  total_output_tokens : Z;
  total_tokens : Z;
  cost_estimate : float;
  response_time_ms : Z;
  final_response : option string;
  confidence_score : option float;
  function_calls_made : list string;
  tools_used : list string;
  error_message : option string;
  error_type : option string;
  error_code : option Z;
  retry_count : Z
}.

(** Attribute assignments [comm.x = v], one per attribute (or run of
    attributes) that the tracker assigns. *)
Definition set_messages (v : list LLMMessage.t) (c : t) : t :=
  mk (id c) (agent_id c) (agent_name c) (agent_specialty c) (framework c)
     (provider c) (model c) (session_start c) (session_end c) (patient_id c)
     (patient_name c) (scenario_type c) v (system_prompt c)
     (total_input_tokens c) (total_output_tokens c) (total_tokens c)
     (cost_estimate c) (response_time_ms c) (final_response c)
     (confidence_score c) (function_calls_made c) (tools_used c)
     (error_message c) (error_type c) (error_code c) (retry_count c).

Definition set_total_input_tokens (v : Z) (c : t) : t :=
  mk (id c) (agent_id c) (agent_name c) (agent_specialty c) (framework c)
     (provider c) (model c) (session_start c) (session_end c) (patient_id c)
     (patient_name c) (scenario_type c) (messages c) (system_prompt c)
     v (total_output_tokens c) (total_tokens c)
     (cost_estimate c) (response_time_ms c) (final_response c)
     (confidence_score c) (function_calls_made c) (tools_used c)
     (error_message c) (error_type c) (error_code c) (retry_count c).

Definition set_total_output_tokens (v : Z) (c : t) : t :=
  mk (id c) (agent_id c) (agent_name c) (agent_specialty c) (framework c)
     (provider c) (model c) (session_start c) (session_end c) (patient_id c)
     (patient_name c) (scenario_type c) (messages c) (system_prompt c)
     (total_input_tokens c) v (total_tokens c)
     (cost_estimate c) (response_time_ms c) (final_response c)
     (confidence_score c) (function_calls_made c) (tools_used c)
     (error_message c) (error_type c) (error_code c) (retry_count c).

Definition set_total_tokens (v : Z) (c : t) : t :=
  mk (id c) (agent_id c) (agent_name c) (agent_specialty c) (framework c)
     (provider c) (model c) (session_start c) (session_end c) (patient_id c)
     (patient_name c) (scenario_type c) (messages c) (system_prompt c)
     (total_input_tokens c) (total_output_tokens c) v
     (cost_estimate c) (response_time_ms c) (final_response c)
     (confidence_score c) (function_calls_made c) (tools_used c)
     (error_message c) (error_type c) (error_code c) (retry_count c).

Definition set_function_calls_made (v : list string) (c : t) : t :=
  mk (id c) (agent_id c) (agent_name c) (agent_specialty c) (framework c)
     (provider c) (model c) (session_start c) (session_end c) (patient_id c)
     (patient_name c) (scenario_type c) (messages c) (system_prompt c)
     (total_input_tokens c) (total_output_tokens c) (total_tokens c)
     (cost_estimate c) (response_time_ms c) (final_response c)
     (confidence_score c) v (tools_used c)
     (error_message c) (error_type c) (error_code c) (retry_count c).

Definition set_tools_used (v : list string) (c : t) : t :=
  mk (id c) (agent_id c) (agent_name c) (agent_specialty c) (framework c)
     (provider c) (model c) (session_start c) (session_end c) (patient_id c)
     (patient_name c) (scenario_type c) (messages c) (system_prompt c)
     (total_input_tokens c) (total_output_tokens c) (total_tokens c)
     (cost_estimate c) (response_time_ms c) (final_response c)
     (confidence_score c) (function_calls_made c) v
     (error_message c) (error_type c) (error_code c) (retry_count c).

(** The eight assignments that open the finalisation:
    [session_end], [final_response], [response_time_ms],
    [confidence_score], [error_message], [error_type], [error_code],
    [retry_count]. *)
Definition set_outcome (now : Z) (final_response' : string)
    (response_time_ms' : Z) (confidence_score' : option float)
    (error_message' error_type' : option string) (error_code' : option Z)
    (retry_count' : Z) (c : t) : t :=
  mk (id c) (agent_id c) (agent_name c) (agent_specialty c) (framework c)
     (provider c) (model c) (session_start c) (Some now) (patient_id c)
     (patient_name c) (scenario_type c) (messages c) (system_prompt c)
     (total_input_tokens c) (total_output_tokens c) (total_tokens c)
     (cost_estimate c) response_time_ms' (Some final_response')
     confidence_score' (function_calls_made c) (tools_used c)
     error_message' error_type' error_code' retry_count'.

Definition set_cost_estimate (v : float) (c : t) : t :=
  mk (id c) (agent_id c) (agent_name c) (agent_specialty c) (framework c)
     (provider c) (model c) (session_start c) (session_end c) (patient_id c)
     (patient_name c) (scenario_type c) (messages c) (system_prompt c)
     (total_input_tokens c) (total_output_tokens c) (total_tokens c)
     v (response_time_ms c) (final_response c)
     (confidence_score c) (function_calls_made c) (tools_used c)
     (error_message c) (error_type c) (error_code c) (retry_count c).
End LLMCommunication.

(** ** The tracker *)

Import LLMCommunication.

Record ModelPricing := { input : float; output : float }.

(** [self.pricing]: per provider, per model, the price of 1000 tokens. *)
Definition pricing : odict LLMProvider (odict string ModelPricing) :=
  [ (OPENAI,
     [ ("gpt-4", {| input := 0.03; output := 0.06 |});
       ("gpt-4-turbo", {| input := 0.01; output := 0.03 |});
       ("gpt-3.5-turbo", {| input := 0.0015; output := 0.002 |}) ]) ].

Record LLMCommunicationTracker := {
  communications : odict string LLMCommunication.t;
  (** agent_id -> communication_id *)
  active_sessions : gmap string string;
  webhook_url : option string
}.

(** [LLMCommunicationTracker(webhook_url)] *)
Definition new_tracker (webhook_url : option string) : LLMCommunicationTracker :=
  {| communications := []; active_sessions := ∅; webhook_url := webhook_url |}.

(** [comm_id] is the identifier the method builds from the clock and a
    random uuid, [now] the reading of [datetime.now()] that
    [__post_init__] stores. *)
Definition start_communication (self : LLMCommunicationTracker)
    (comm_id : string) (now : Z)
    (agent_id agent_name agent_specialty : string)
    (framework : AgentFramework) (provider : LLMProvider) (model : string)
    (patient_id patient_name : option string) (scenario_type : string)
    (system_prompt : option string) : LLMCommunicationTracker * string :=
  let communication :=
    LLMCommunication.mk comm_id agent_id agent_name agent_specialty
      framework provider model now None patient_id patient_name
      scenario_type [] system_prompt 0 0 0 0%float 0 None None [] []
      None None None 0 in
  ({| communications := odict_set comm_id communication (communications self);
      active_sessions := <[agent_id := comm_id]> (active_sessions self);
      webhook_url := webhook_url self |},
   comm_id).

(** [tool_call.get("function", {}).get("name", "unknown")] *)
Definition tool_name (tool_call : ToolCall) : string :=
  match tc_function tool_call with
  | Some f => default "unknown" (f !! "name")
  | None => "unknown"
  end.

(** The token update of [add_message], run when [tokens] is truthy. *)
Definition update_token_counts (role : string) (tokens : Z)
    (c : LLMCommunication.t) : LLMCommunication.t :=
  let c :=
    if (String.eqb role "user" || String.eqb role "system")%bool
    then set_total_input_tokens (total_input_tokens c + tokens) c
    else if String.eqb role "assistant"
    then set_total_output_tokens (total_output_tokens c + tokens) c
    else c in
  set_total_tokens (total_input_tokens c + total_output_tokens c) c.

(** What [add_message] does to the stored record. *)
Definition record_message (message : LLMMessage.t)
    (c : LLMCommunication.t) : LLMCommunication.t :=
  let c := set_messages (messages c ++ [message]) c in
  let c :=
    match LLMMessage.tokens message with
    | Some tokens =>
        if tokens =? 0 then c
        else update_token_counts (LLMMessage.role message) tokens c
    | None => c
    end in
  let c :=
    match LLMMessage.function_call message with
    | Some function_call =>
        if decide (function_call = ∅) then c
        else set_function_calls_made
               (function_calls_made c
                  ++ [default "unknown" (function_call !! "name")]) c
    | None => c
    end in
  match LLMMessage.tool_calls message with
  | Some tool_calls =>
      fold_left
        (fun c tool_call => set_tools_used (tools_used c ++ [tool_name tool_call]) c)
        tool_calls c
  | None => c
  end.

(** [message_id] is the generated identifier, [now] the message's
    timestamp. *)
Definition add_message (self : LLMCommunicationTracker)
    (message_id : string) (now : Z) (comm_id role content : string)
    (tokens : option Z) (function_call : option pydict)
    (tool_calls : option (list ToolCall)) : LLMCommunicationTracker * string :=
  let message :=
    LLMMessage.mk message_id now role content tokens function_call tool_calls in
  match odict_get comm_id (communications self) with
  | Some c =>
      ({| communications :=
            odict_set comm_id (record_message message c) (communications self);
          active_sessions := active_sessions self;
          webhook_url := webhook_url self |},
       message_id)
  | None => (self, message_id)
  end.

Definition _calculate_cost (comm : LLMCommunication.t) : result float :=
  match odict_get (provider comm) pricing with
  | None => Ok 0%float
  | Some models =>
      match odict_get (model comm) models with
      | None => Ok 0%float
      | Some model_pricing =>
          q_in ← py_truediv (total_input_tokens comm) 1000;
          let input_cost := (q_in * input model_pricing)%float in
          q_out ← py_truediv (total_output_tokens comm) 1000;
          let output_cost := (q_out * output model_pricing)%float in
          Ok (input_cost + output_cost)%float
      end
  end.

(** What a call of [complete_communication] leaves behind: the tracker,
    the records handed to the executor for the webhook (by their id), and
    the exception that left the method, if any. *)
Record Completion := {
  completed_tracker : LLMCommunicationTracker;
  webhooks_submitted : list string;
  raised : option PyException
}.

(** [now] is the reading of [datetime.now()] stored in [session_end]. *)
Definition complete_communication (self : LLMCommunicationTracker)
    (now : Z) (comm_id final_response : string) (response_time_ms : Z)
    (confidence_score : option float)
    (error_message error_type : option string) (error_code : option Z)
    (retry_count : Z) : Completion :=
  match odict_get comm_id (communications self) with
  | None =>
      {| completed_tracker := self; webhooks_submitted := []; raised := None |}
  | Some comm =>
      match messages comm with
      | [] =>
          {| completed_tracker :=
               {| communications := odict_del comm_id (communications self);
                  active_sessions := active_sessions self;
                  webhook_url := webhook_url self |};
             webhooks_submitted := [];
             raised := None |}
      | _ :: _ =>
          let comm :=
            set_outcome now final_response response_time_ms confidence_score
              error_message error_type error_code retry_count comm in
          match _calculate_cost comm with
          | Raise e =>
              {| completed_tracker :=
                   {| communications :=
                        odict_set comm_id comm (communications self);
                      active_sessions := active_sessions self;
                      webhook_url := webhook_url self |};
                 webhooks_submitted := [];
                 raised := Some e |}
          | Ok cost =>
              let comm := set_cost_estimate cost comm in
              {| completed_tracker :=
                   {| communications :=
                        odict_set comm_id comm (communications self);
                      active_sessions :=
                        match active_sessions self !! agent_id comm with
                        | Some _ => delete (agent_id comm) (active_sessions self)
                        | None => active_sessions self
                        end;
                      webhook_url := webhook_url self |};
                 webhooks_submitted :=
                   match webhook_url self with
                   | Some url =>
                       if String.eqb url "" then [] else [id comm]
                   | None => []
                   end;
                 raised := None |}
          end
      end
  end.

Definition get_communication (self : LLMCommunicationTracker)
    (comm_id : string) : option LLMCommunication.t :=
  odict_get comm_id (communications self).

(** ** Statistics and export *)

(** Truthiness of an [Optional[str]]: set and not empty. *)
Definition truthy_str (s : option string) : bool :=
  match s with
  | Some s => negb (String.eqb s "")
  | None => false
  end.

Definition is_completed (c : LLMCommunication.t) : bool :=
  match session_end c with
  | Some _ => true
  | None => false
  end.

Record FrameworkStats := {
  fs_count : Z;
  fs_tokens : Z;
  fs_cost : float
}.

(** The ["latest_error"] entry; the timestamp is [session_start], which
    the code renders with [isoformat]. *)
Record ErrorSnapshot := {
  snap_message : option string;
  snap_code : option Z;
  snap_timestamp : Z;
  snap_agent : string
}.

Record ErrorStats := {
  es_count : Z;
  es_latest_error : option ErrorSnapshot
}.

Record FullStats := {
  total : Z;
  completed : Z;
  active : Z;
  errors : Z;
  stats_total_tokens : Z;
  total_cost : float;
  average_response_time_ms : Z;
  by_framework : odict string FrameworkStats;
  error_breakdown : odict string ErrorStats
}.

(** The two shapes [get_communication_stats] returns. *)
Inductive Stats :=
| StatsEmpty                 (* {"total": 0, "completed": 0} *)
| StatsFull (s : FullStats).

Definition framework_stats_of (completed_comms : list LLMCommunication.t)
    (fw : AgentFramework) : string * FrameworkStats :=
  let framework_comms :=
    List.filter (fun c => bool_decide (framework c = fw)) completed_comms in
  (framework_value fw,
   {| fs_count := len framework_comms;
      fs_tokens := sum_int (List.map total_tokens framework_comms);
      fs_cost := sum_float (List.map cost_estimate framework_comms) |}).

(** One round of the loop over [error_comms]. *)
Definition record_error (error_stats : odict string ErrorStats)
    (error_comm : LLMCommunication.t) : odict string ErrorStats :=
  let error_type :=
    if truthy_str (error_type error_comm)
    then default "unknown" (error_type error_comm)
    else "unknown" in
  let entry :=
    default {| es_count := 0; es_latest_error := None |}
            (odict_get error_type error_stats) in
  odict_set error_type
    {| es_count := es_count entry + 1;
       es_latest_error :=
         Some {| snap_message := error_message error_comm;
                 snap_code := error_code error_comm;
                 snap_timestamp := session_start error_comm;
                 snap_agent := agent_name error_comm |} |}
    error_stats.

Definition get_communication_stats (self : LLMCommunicationTracker)
    : result Stats :=
  let comms := odict_values (communications self) in
  let completed_comms := List.filter is_completed comms in
  match completed_comms with
  | [] => Ok StatsEmpty
  | _ :: _ =>
      let total_tokens := sum_int (List.map total_tokens completed_comms) in
      let total_cost := sum_float (List.map cost_estimate completed_comms) in
      avg_response_time ←
        py_truediv (sum_int (List.map response_time_ms completed_comms))
                   (len completed_comms);
      let framework_stats :=
        List.map (framework_stats_of completed_comms) all_frameworks in
      let error_comms :=
        List.filter (fun c => truthy_str (error_message c)) completed_comms in
      let error_stats := fold_left record_error error_comms [] in
      average ← py_int avg_response_time;
      Ok (StatsFull
            {| total := len comms;
               completed := len completed_comms;
               active := Z.of_nat (size (active_sessions self));
               errors := len error_comms;
               stats_total_tokens := total_tokens;
               total_cost := total_cost;
               average_response_time_ms := average;
               by_framework := framework_stats;
               error_breakdown := error_stats |})
  end.

(** The list [export_data] that the ["json"] branch of
    [export_communications] builds: one [asdict(comm)] per stored record,
    in store order.  The loop replaces the timestamps by their ISO strings
    and nothing else: ["framework"] and ["provider"] stay the members of
    [AgentFramework] and [LLMProvider] that [asdict] copied. *)
Definition export_data (self : LLMCommunicationTracker)
    : list LLMCommunication.t :=
  odict_values (communications self).

(** [json.dumps(export_data, indent=2)] with the default encoder.  The
    empty list is rendered as the two brackets.  In a dictionary of
    [export_data] the encoder meets, after the four strings ["id"],
    ["agent_id"], ["agent_name"] and ["agent_specialty"], the member of
    [AgentFramework] under ["framework"]; [AgentFramework] is a plain
    [Enum], which the encoder does not serialise, so the call raises at the
    first entry. *)
Definition json_dumps (export_data : list LLMCommunication.t)
    : result string :=
  match export_data with
  | [] => Ok "[]"
  | _ :: _ =>
      Raise (TypeError "Object of type AgentFramework is not JSON serializable")
  end.

(** [export_communications]: the text of [json.dumps] for the format
    ["json"], with what [json.dumps] raises; [ValueError] for any other
    format. *)
Definition export_communications (self : LLMCommunicationTracker)
    (format : string) : result string :=
  if String.eqb format "json"
  then json_dumps (export_data self)
  else Raise (ValueError (String.append "Unsupported export format: " format)).

(** ** The error classifier *)

Definition parse_openai_error `{StrLower} (exception : PyException)
    : string * string * option Z :=
  let error_message := exc_message exception in
  let error_type := "unknown_error" in
  let error_code := exc_status_code exception in
  let lowered := str_lower error_message in
  if (contains "insufficient_quota" lowered || contains "quota" lowered)%bool
  then (error_message, "quota_exceeded", Some 429)
  else if (contains "rate limit" lowered || contains "429" error_message)%bool
  then (error_message, "rate_limit", Some 429)
  else if (contains "invalid api key" lowered || contains "unauthorized" lowered
           || contains "401" error_message)%bool
  then (error_message, "auth_failed", Some 401)
  else if contains "api key specified is not a valid openai format" lowered
  then (error_message, "invalid_key_format", Some 400)
  else if contains "400" error_message
  then (error_message, "bad_request", Some 400)
  else if contains "500" error_message
  then (error_message, "server_error", Some 500)
  else (error_message, error_type, error_code).

(** The classifier as the specification words it: an ordered list of
    rules, each a set of needles looked for in the lowered message, an
    error type and a code; the first rule with a needle in the message
    wins, and without one the type is [unknown_error] and the code is the
    exception's own status code, if it has one. *)
Definition classifier_rules : list (list string * string * Z) :=
  [ (["insufficient_quota"; "quota"], "quota_exceeded", 429);
    (["rate limit"; "429"], "rate_limit", 429);
    (["invalid api key"; "unauthorized"; "401"], "auth_failed", 401);
    (["api key specified is not a valid openai format"],
     "invalid_key_format", 400);
    (["400"], "bad_request", 400);
    (["500"], "server_error", 500) ].

Definition rule_matches (lowered : string)
    (rule : list string * string * Z) : bool :=
  existsb (fun needle => contains needle lowered) rule.1.1.

Definition classify_by_rules `{StrLower} (exception : PyException)
    : string * string * option Z :=
  let error_message := exc_message exception in
  match List.find (rule_matches (str_lower error_message)) classifier_rules with
  | Some rule => (error_message, rule.1.2, Some rule.2)
  | None => (error_message, "unknown_error", exc_status_code exception)
  end.

(** ** The framework wrappers *)

(** What one wrapped call reads from the environment. *)
Record CallEnv := {
  (** the identifier [start_communication] generates *)
  env_comm_id : string;
  (** the identifier the i-th [add_message] generates *)
  env_message_id : nat -> string;
  (** the i-th reading of [datetime.now()] *)
  env_now : nat -> Z;
  (** the i-th measurement [int((time.time() - start_time) * 1000)] *)
  env_elapsed_ms : nat -> Z
}.

(** What a wrapped call leaves behind: the tracker, the webhooks
    submitted, and what the caller gets (the reply, or the exception). *)
Record Tracked (A : Type) := {
  tracked_tracker : LLMCommunicationTracker;
  tracked_webhooks : list string;
  tracked_outcome : result A
}.
Arguments tracked_tracker {A} _.
Arguments tracked_webhooks {A} _.
Arguments tracked_outcome {A} _.

(** A chat message as AutoGen passes it: its ["role"] and the text of its
    ["content"]. *)
Record ChatMessage := { chat_role : string; chat_content : string }.

Inductive Reply :=
| ReplyStr (s : string)
| ReplyDict (d : pydict)
| ReplyOther.

(** The loop [for msg in messages: self.tracker.add_message(...)]; [i] is
    the number of messages logged so far. *)
Fixpoint log_messages (self : LLMCommunicationTracker) (env : CallEnv)
    (comm_id : string) (i : nat) (messages : list ChatMessage)
    : LLMCommunicationTracker :=
  match messages with
  | [] => self
  | msg :: rest =>
      let self :=
        (add_message self (env_message_id env i) (env_now env (S i)) comm_id
           (chat_role msg) (chat_content msg) None None None).1 in
      log_messages self env comm_id (S i) rest
  end.

(** The [except Exception as e] block of [tracked_generate_reply];
    [k] and [j] number the clock reading and the time measurement. *)
Definition autogen_on_error `{StrLower} (self : LLMCommunicationTracker)
    (env : CallEnv) (k j : nat) (comm_id : string) (e : PyException)
    : Tracked Reply :=
  (* error_type, error_message, error_code = self.tracker.parse_openai_error(e) *)
  let '(error_type, error_message, error_code) := parse_openai_error e in
  let final_response_on_error := String.append "Error: " error_message in
  let done :=
    complete_communication self (env_now env k) comm_id
      final_response_on_error (env_elapsed_ms env j) None
      (Some error_message) (Some error_type) error_code
      (default 0 (exc_retry_count e)) in
  {| tracked_tracker := completed_tracker done;
     tracked_webhooks := webhooks_submitted done;
     tracked_outcome :=
       match raised done with
       | Some e' => Raise e'
       | None => Raise e          (* raise e *)
       end |}.

(** [AutoGenLLMWrapper.wrap_agent]'s [tracked_generate_reply].
    [model] is what the wrapper reads from [agent.llm_config],
    [system_message] is [agent.system_message], [sender_history] is
    [sender.chat_messages[agent]] when the sender has it, and
    [original_generate_reply] is what the wrapped method does on this
    call: it returns a reply or raises. *)
Definition tracked_generate_reply `{StrLower}
    (self : LLMCommunicationTracker) (env : CallEnv)
    (agent_id agent_name specialty model : string)
    (system_message : option string)
    (messages sender_history : option (list ChatMessage))
    (original_generate_reply : result Reply) : Tracked Reply :=
  let messages :=
    match messages with
    | Some messages => messages
    | None => default [] sender_history
    end in
  let '(self, comm_id) :=
    start_communication self (env_comm_id env) (env_now env 0)
      agent_id agent_name specialty AUTOGEN OPENAI model None None
      "assessment" system_message in
  let self := log_messages self env comm_id 0 messages in
  let n := length messages in
  match original_generate_reply with
  | Ok reply =>
      let response_time_ms := env_elapsed_ms env 0 in
      let response_content :=
        match reply with
        | ReplyStr s => s
        | ReplyDict d =>
            match d !! "content" with
            | Some s => s
            | None => ""
            end
        | ReplyOther => ""
        end in
      let self :=
        (add_message self (env_message_id env n) (env_now env (S n)) comm_id
           "assistant" response_content None None None).1 in
      let done :=
        complete_communication self (env_now env (S (S n))) comm_id
          response_content response_time_ms None None None None 0 in
      match raised done with
      | None =>
          {| tracked_tracker := completed_tracker done;
             tracked_webhooks := webhooks_submitted done;
             tracked_outcome := Ok reply |}
      | Some e =>
          autogen_on_error (completed_tracker done) env (S (S (S n))) 1
            comm_id e
      end
  | Raise e => autogen_on_error self env (S n) 0 comm_id e
  end.

(** [max(1, len(text) // 4)] *)
Definition _estimate_tokens (text : string) : Z :=
  Z.max 1 (Z.of_nat (String.length text) / 4).

(** The [except Exception as e] block of [tracked_call]. *)
Definition crewai_on_error `{StrLower} (self : LLMCommunicationTracker)
    (env : CallEnv) (k j : nat) (comm_id : string) (e : PyException)
    : Tracked string :=
  let response_time := env_elapsed_ms env j in
  (* error_message, error_type, error_code = self.tracker.parse_openai_error(e) *)
  let '(error_message, error_type, error_code) := parse_openai_error e in
  let done :=
    complete_communication self (env_now env k) comm_id "" response_time
      None (Some error_message) (Some error_type) error_code 0 in
  {| tracked_tracker := completed_tracker done;
     tracked_webhooks := webhooks_submitted done;
     tracked_outcome :=
       match raised done with
       | Some e' => Raise e'
       | None => Raise e          (* raise *)
       end |}.

(** [CrewAILLMWrapper.wrap_agent_llm]'s [tracked_call].  [model] is
    [getattr(agent.llm, 'model_name', 'gpt-4')]; [original_call] is what
    the wrapped method does on this call, a result given by its text. *)
Definition tracked_call `{StrLower} (self : LLMCommunicationTracker)
    (env : CallEnv) (agent_id agent_name specialty model prompt : string)
    (original_call : result string) : Tracked string :=
  let '(self, comm_id) :=
    start_communication self (env_comm_id env) (env_now env 0)
      agent_id agent_name specialty CREWAI OPENAI model None None
      "assessment" None in
  let self :=
    (add_message self (env_message_id env 0) (env_now env 1) comm_id
       "user" prompt (Some (_estimate_tokens prompt)) None None).1 in
  match original_call with
  | Ok response_content =>
      let self :=
        (add_message self (env_message_id env 1) (env_now env 2) comm_id
           "assistant" response_content
           (Some (_estimate_tokens response_content)) None None).1 in
      let response_time := env_elapsed_ms env 0 in
      let done :=
        complete_communication self (env_now env 3) comm_id response_content
          response_time None None None None 0 in
      match raised done with
      | None =>
          {| tracked_tracker := completed_tracker done;
             tracked_webhooks := webhooks_submitted done;
             tracked_outcome := Ok response_content |}
      | Some e => crewai_on_error (completed_tracker done) env 4 1 comm_id e
      end
  | Raise e => crewai_on_error self env 2 0 comm_id e
  end.

(** ** Sequences of tracker calls *)

Inductive Call :=
| StartCommunication (comm_id : string) (now : Z)
    (agent_id agent_name agent_specialty : string)
    (framework : AgentFramework) (provider : LLMProvider) (model : string)
    (patient_id patient_name : option string) (scenario_type : string)
    (system_prompt : option string)
| AddMessage (message_id : string) (now : Z) (comm_id role content : string)
    (tokens : option Z) (function_call : option pydict)
    (tool_calls : option (list ToolCall))
| CompleteCommunication (now : Z) (comm_id final_response : string)
    (response_time_ms : Z) (confidence_score : option float)
    (error_message error_type : option string) (error_code : option Z)
    (retry_count : Z).

(** The tracker after one call (whatever the call returned or raised). *)
Definition call (self : LLMCommunicationTracker) (c : Call)
    : LLMCommunicationTracker :=
  match c with
  | StartCommunication comm_id now agent_id agent_name agent_specialty
      framework provider model patient_id patient_name scenario_type
      system_prompt =>
      (start_communication self comm_id now agent_id agent_name
         agent_specialty framework provider model patient_id patient_name
         scenario_type system_prompt).1
  | AddMessage message_id now comm_id role content tokens function_call
      tool_calls =>
      (add_message self message_id now comm_id role content tokens
         function_call tool_calls).1
  | CompleteCommunication now comm_id final_response response_time_ms
      confidence_score error_message error_type error_code retry_count =>
      completed_tracker
        (complete_communication self now comm_id final_response
           response_time_ms confidence_score error_message error_type
           error_code retry_count)
  end.

Definition run (self : LLMCommunicationTracker) (calls : list Call)
    : LLMCommunicationTracker :=
  fold_left call calls self.

(** The states a tracker goes through in its life. *)
Definition reachable (self : LLMCommunicationTracker) : Prop :=
  exists webhook_url calls, self = run (new_tracker webhook_url) calls.

(** ** Vocabulary of the properties *)

(** The token count a call supplies to the roles [roles]: the [tokens] of
    an [add_message] whose role is one of them, and nothing otherwise. *)
Definition tokens_of (roles : list string) (c : Call) : Z :=
  match c with
  | AddMessage _ _ _ role _ (Some tokens) _ _ =>
      if existsb (String.eqb role) roles then tokens else 0
  | _ => 0
  end.

Definition tokens_supplied (roles : list string) (calls : list Call) : Z :=
  sum_int (List.map (tokens_of roles) calls).

(** The role a call passes, when it is an [add_message]. *)
Definition call_role (c : Call) : option string :=
  match c with
  | AddMessage _ _ _ role _ _ _ _ => Some role
  | _ => None
  end.

(** [c] is an [add_message] on [comm_id]. *)
Definition adds_message_to (comm_id : string) (c : Call) : Prop :=
  match c with
  | AddMessage _ _ comm_id' _ _ _ _ _ => comm_id' = comm_id
  | _ => False
  end.

(** The communication a call names. *)
Definition call_target (c : Call) : string :=
  match c with
  | StartCommunication comm_id _ _ _ _ _ _ _ _ _ _ _ => comm_id
  | AddMessage _ _ comm_id _ _ _ _ _ => comm_id
  | CompleteCommunication _ comm_id _ _ _ _ _ _ _ => comm_id
  end.

(** [c] is a [start_communication] that generates [comm_id]. *)
Definition starts (comm_id : string) (c : Call) : Prop :=
  match c with
  | StartCommunication comm_id' _ _ _ _ _ _ _ _ _ _ _ => comm_id' = comm_id
  | _ => False
  end.

(** [c] is a [complete_communication]. *)
Definition completes (c : Call) : Prop :=
  match c with
  | CompleteCommunication _ _ _ _ _ _ _ _ _ => True
  | _ => False
  end.

(** The price of a (provider, model) pair in the table. *)
Definition priced (provider : LLMProvider) (model : string)
    : option ModelPricing :=
  odict_get provider pricing ≫= odict_get model.


(** The invariant of a record. *)
Definition tokens_and_cost_consistent (c : LLMCommunication.t) : Prop :=
  total_tokens c = total_input_tokens c + total_output_tokens c /\
  (session_end c = None -> cost_estimate c = 0%float).

(** The characters "0" to "9", which lowering neither changes nor
    produces. *)
Definition is_digit (c : ascii) : bool :=
  ((48 <=? N_of_ascii c) && (N_of_ascii c <=? 57))%N.

Fixpoint all_digits (s : string) : bool :=
  match s with
  | EmptyString => true
  | String c s' => is_digit c && all_digits s'
  end.

(** No rule of the classifier matches the message. *)
Definition no_rule_matches `{StrLower} (error_message : string) : Prop :=
  let lowered := str_lower error_message in
  contains "insufficient_quota" lowered = false /\
  contains "quota" lowered = false /\
  contains "rate limit" lowered = false /\
  contains "429" error_message = false /\
  contains "invalid api key" lowered = false /\
  contains "unauthorized" lowered = false /\
  contains "401" error_message = false /\
  contains "api key specified is not a valid openai format" lowered = false /\
  contains "400" error_message = false /\
  contains "500" error_message = false.

(** ** Sample sessions *)

(** The end-to-end scenario of the specification: one agent, one user
    message of 50 tokens, one assistant message of 30 tokens. *)
Definition session_open : list Call :=
  [ StartCommunication "comm_1" 1000 "a1" "Dr. X" "cardiology" AUTOGEN OPENAI
      "gpt-4" (Some "p1") None "assessment" None;
    AddMessage "msg_1" 1001 "comm_1" "user" "assess patient" (Some 50)
      None None;
    AddMessage "msg_2" 1002 "comm_1" "assistant" "recommend follow-up"
      (Some 30) None None ].

Definition session_complete : Call :=
  CompleteCommunication 1003 "comm_1" "recommend follow-up" 1200 None None
    None None 0.

Definition session_done : list Call := session_open ++ [session_complete].

(** An agent that starts a second session while its first is open. *)
Definition overlapping_sessions : list Call :=
  [ StartCommunication "comm_1" 1000 "a1" "Dr. X" "cardiology" AUTOGEN OPENAI
      "gpt-4" None None "assessment" None;
    AddMessage "msg_1" 1001 "comm_1" "user" "assess patient" (Some 50)
      None None;
    StartCommunication "comm_2" 1002 "a1" "Dr. X" "cardiology" AUTOGEN OPENAI
      "gpt-4" None None "assessment" None ].

(** A session opened and never talked on, after a finished one. *)
Definition phantom_session : list Call :=
  session_done ++
  [ StartCommunication "comm_2" 1004 "a2" "Dr. Y" "neurology" CREWAI OPENAI
      "gpt-4" None None "assessment" None ].

(** The cost example of the specification: openai, "gpt-4", 1000 input
    and 1000 output tokens. *)
Definition session_thousand : list Call :=
  [ StartCommunication "comm_1" 1000 "a1" "Dr. X" "cardiology" CUSTOM OPENAI
      "gpt-4" None None "assessment" None;
    AddMessage "msg_1" 1001 "comm_1" "user" "question" (Some 1000) None None;
    AddMessage "msg_2" 1002 "comm_1" "assistant" "answer" (Some 1000) None
      None ].

(** ** The read side of the tracker *)

Definition get_agent_communications (self : LLMCommunicationTracker)
    (agent_id : string) : list LLMCommunication.t :=
  List.filter (fun comm => bool_decide (LLMCommunication.agent_id comm = agent_id))
    (odict_values (communications self)).

Definition get_patient_communications (self : LLMCommunicationTracker)
    (patient_id : string) : list LLMCommunication.t :=
  List.filter
    (fun comm => bool_decide (LLMCommunication.patient_id comm = Some patient_id))
    (odict_values (communications self)).

(** [sorted(xs, key=lambda x: x.session_start, reverse=True)]: the sort is
    stable, also when reversed, so records that started at the same time
    keep their order.  [insert_by_start x l] puts [x], which comes before
    the records of [l] in the input, in front of the first record that
    did not start later than [x]. *)
Fixpoint insert_by_start (x : LLMCommunication.t)
    (l : list LLMCommunication.t) : list LLMCommunication.t :=
  match l with
  | [] => [x]
  | y :: l' =>
      if session_start y <=? session_start x then x :: y :: l'
      else y :: insert_by_start x l'
  end.

Definition sorted_by_start (xs : list LLMCommunication.t)
    : list LLMCommunication.t :=
  foldr insert_by_start [] xs.

(** [xs[:limit]]: for a negative [limit], all but the last [-limit]. *)
Definition py_slice_to {A} (limit : Z) (xs : list A) : list A :=
  if 0 <=? limit then take (Z.to_nat limit) xs
  else take (length xs - Z.to_nat (- limit)) xs.

Definition get_recent_communications (self : LLMCommunicationTracker)
    (limit : Z) : list LLMCommunication.t :=
  let sorted_comms := sorted_by_start (odict_values (communications self)) in
  py_slice_to limit sorted_comms.

Record QuotaErrorSnapshot := {
  (** [session_start], which the code renders with [isoformat] *)
  quota_timestamp : Z;
  quota_agent_name : string;
  quota_error_message : option string;
  quota_patient_id : option string;
  quota_scenario_type : string
}.

Record QuotaDetails := {
  total_quota_errors : Z;
  latest_quota_error : QuotaErrorSnapshot;
  (** [list(set(...))]: the names without repetition; the order of the
      list is the interpreter's and is not part of the embedding *)
  affected_agents : gset string;
  recommendation : string
}.

(** The two shapes [get_quota_exceeded_details] returns. *)
Inductive QuotaReport :=
| NoQuotaErrors              (* {"has_quota_errors": False} *)
| QuotaErrors (details : QuotaDetails).

Definition is_quota_error (comm : LLMCommunication.t) : bool :=
  bool_decide (error_type comm = Some "quota_exceeded").

(** [max(best :: rest, key=lambda x: x.session_start)]: the first of the
    records that started last. *)
Fixpoint max_by_start (best : LLMCommunication.t)
    (rest : list LLMCommunication.t) : LLMCommunication.t :=
  match rest with
  | [] => best
  | comm :: rest' =>
      max_by_start
        (if session_start best <? session_start comm then comm else best)
        rest'
  end.

Definition get_quota_exceeded_details (self : LLMCommunicationTracker)
    : QuotaReport :=
  let quota_errors :=
    List.filter is_quota_error (odict_values (communications self)) in
  match quota_errors with
  | [] => NoQuotaErrors
  | first :: others =>
      let latest_quota_error := max_by_start first others in
      QuotaErrors
        {| total_quota_errors := len quota_errors;
           latest_quota_error :=
             {| quota_timestamp := session_start latest_quota_error;
                quota_agent_name := agent_name latest_quota_error;
                quota_error_message := error_message latest_quota_error;
                quota_patient_id := patient_id latest_quota_error;
                quota_scenario_type := scenario_type latest_quota_error |};
           affected_agents := list_to_set (List.map agent_name quota_errors);
           recommendation :=
             "Please check your OpenAI account billing and usage limits at https://platform.openai.com/account/billing" |}
  end.

(** [reset_tracker()]: the global tracker becomes a new tracker without a
    webhook. *)
Definition reset_tracker (_ : LLMCommunicationTracker)
    : LLMCommunicationTracker :=
  new_tracker None.

(** ** A caller: the end of a scenario in [agent_backend/main.py]

    The [except Exception as e] block of [execute_autogen_scenario] and of
    [execute_crewai_scenario] closes the session the handler started for
    an agent (or for the crew):
    [comm_id = tracker.active_sessions.get(agent_id)] and, [if comm_id:],
    [tracker.complete_communication(comm_id, final_response="",
    response_time_ms=0, error_message=str(e))]. *)
Definition end_session_on_error (self : LLMCommunicationTracker) (now : Z)
    (agent_id error : string) : Completion :=
  match active_sessions self !! agent_id with
  | Some comm_id =>
      if String.eqb comm_id ""
      then {| completed_tracker := self; webhooks_submitted := [];
              raised := None |}
      else complete_communication self now comm_id "" 0 None (Some error)
             None None 0
  | None =>
      {| completed_tracker := self; webhooks_submitted := []; raised := None |}
  end.

(** ** Vocabulary of the further properties *)

(** The message [add_message] builds from a call. *)
Definition message_of (c : Call) : option LLMMessage.t :=
  match c with
  | AddMessage message_id now _ role content tokens function_call tool_calls =>
      Some (LLMMessage.mk message_id now role content tokens function_call
              tool_calls)
  | _ => None
  end.

(** What one message contributes to the derived fields of its record. *)
Definition message_input_tokens (m : LLMMessage.t) : Z :=
  match LLMMessage.tokens m with
  | Some tokens =>
      if (String.eqb (LLMMessage.role m) "user"
          || String.eqb (LLMMessage.role m) "system")%bool
      then tokens else 0
  | None => 0
  end.

Definition message_output_tokens (m : LLMMessage.t) : Z :=
  match LLMMessage.tokens m with
  | Some tokens =>
      if (String.eqb (LLMMessage.role m) "user"
          || String.eqb (LLMMessage.role m) "system")%bool
      then 0
      else if String.eqb (LLMMessage.role m) "assistant" then tokens else 0
  | None => 0
  end.

Definition message_function_names (m : LLMMessage.t) : list string :=
  match LLMMessage.function_call m with
  | Some function_call =>
      if decide (function_call = ∅) then []
      else [default "unknown" (function_call !! "name")]
  | None => []
  end.

Definition message_tool_names (m : LLMMessage.t) : list string :=
  match LLMMessage.tool_calls m with
  | Some tool_calls => List.map tool_name tool_calls
  | None => []
  end.

(** The derived fields of a record are those of its message log. *)
Definition derived_from_messages (c : LLMCommunication.t) : Prop :=
  total_input_tokens c = sum_int (List.map message_input_tokens (messages c)) /\
  total_output_tokens c =
    sum_int (List.map message_output_tokens (messages c)) /\
  function_calls_made c =
    concat (List.map message_function_names (messages c)) /\
  tools_used c = concat (List.map message_tool_names (messages c)).

(** The outcome fields of a record are as [start_communication] left
    them. *)
Definition outcome_unset (c : LLMCommunication.t) : Prop :=
  final_response c = None /\ response_time_ms c = 0 /\
  confidence_score c = None /\ error_message c = None /\
  error_type c = None /\ error_code c = None /\ retry_count c = 0 /\
  cost_estimate c = 0%float.

(** Two records with the same id, agent and outcome fields. *)
Definition same_outcome (c' c : LLMCommunication.t) : Prop :=
  id c' = id c /\ agent_name c' = agent_name c /\
  final_response c' = final_response c /\
  response_time_ms c' = response_time_ms c /\
  confidence_score c' = confidence_score c /\
  error_message c' = error_message c /\ error_type c' = error_type c /\
  error_code c' = error_code c /\ retry_count c' = retry_count c.

(** A record under its own id; completed only with messages; open only
    with the outcome unset. *)
Definition well_kept (key : string) (c : LLMCommunication.t) : Prop :=
  id c = key /\
  (session_end c <> None -> messages c <> []) /\
  (session_end c = None -> outcome_unset c).

(** The key of a record in the error breakdown:
    [error_comm.error_type or "unknown"]. *)
Definition error_bucket (c : LLMCommunication.t) : string :=
  if truthy_str (error_type c) then default "unknown" (error_type c)
  else "unknown".

Definition error_snapshot (c : LLMCommunication.t) : ErrorSnapshot :=
  {| snap_message := error_message c;
     snap_code := error_code c;
     snap_timestamp := session_start c;
     snap_agent := agent_name c |}.

(** The completed records with an error message, in store order. *)
Definition error_comms_of (self : LLMCommunicationTracker)
    : list LLMCommunication.t :=
  List.filter (fun c => truthy_str (error_message c))
    (List.filter is_completed (odict_values (communications self))).

(** [a] did not start before [b]. *)
Definition started_no_earlier (a b : LLMCommunication.t) : Prop :=
  session_start b <= session_start a.

(** The records that started at [t]. *)
Definition started_at (t : Z) (xs : list LLMCommunication.t)
    : list LLMCommunication.t :=
  List.filter (fun c => session_start c =? t) xs.

(** The seven outcomes of the classifier. *)
Definition classifications (exception : PyException)
    : list (string * option Z) :=
  [ ("quota_exceeded", Some 429); ("rate_limit", Some 429);
    ("auth_failed", Some 401); ("invalid_key_format", Some 400);
    ("bad_request", Some 400); ("server_error", Some 500);
    ("unknown_error", exc_status_code exception) ].

(** The exception with its message replaced. *)
Definition with_message (exception : PyException) (message : string)
    : PyException :=
  {| exc_class := exc_class exception; exc_message := message;
     exc_status_code := exc_status_code exception;
     exc_retry_count := exc_retry_count exception |}.

(** ** More sample sessions *)

(** Three agents; two sessions fail, one of them on the quota. *)
Definition session_errors : list Call :=
  [ StartCommunication "comm_1" 1000 "a1" "Dr. X" "cardiology" AUTOGEN OPENAI
      "gpt-4" (Some "p1") None "assessment" None;
    AddMessage "msg_1" 1001 "comm_1" "user" "assess patient" (Some 50)
      None None;
    StartCommunication "comm_2" 1002 "a2" "Dr. Y" "neurology" CREWAI OPENAI
      "gpt-4" (Some "p1") None "emergency" None;
    AddMessage "msg_2" 1003 "comm_2" "user" "check medication" (Some 20)
      (Some {[ "name" := "lookup_drug" ]})
      (Some [ {| tc_id := Some "t1"; tc_type := Some "function";
                 tc_function := Some {[ "name" := "fhir_search" ]} |};
              {| tc_id := Some "t2"; tc_type := Some "function";
                 tc_function := None |} ]);
    StartCommunication "comm_3" 1002 "a3" "Dr. Z" "oncology" CUSTOM OPENAI
      "made-up-model" (Some "p2") None "assessment" None;
    AddMessage "msg_3" 1004 "comm_3" "user" "review" (Some 5) None None;
    CompleteCommunication 1005 "comm_1" "" 800 None
      (Some "You exceeded your current quota") (Some "quota_exceeded")
      (Some 429) 0;
    CompleteCommunication 1006 "comm_2" "" 300 None
      (Some "Internal error 500") (Some "server_error") (Some 500) 1;
    CompleteCommunication 1007 "comm_3" "fine" 100 (Some 0.85%float) None
      None None 0 ].

(** A session whose token total is beyond the float range once divided
    by 1000. *)
Definition session_overflow : list Call :=
  [ StartCommunication "comm_1" 1000 "a1" "Dr. X" "cardiology" AUTOGEN OPENAI
      "gpt-4" None None "assessment" None;
    AddMessage "msg_1" 1001 "comm_1" "user" "assess patient"
      (Some (10 ^ 400)) None None ].

Definition sample_env : CallEnv :=
  {| env_comm_id := "comm_9";
     env_message_id := fun i => if decide (i = 0%nat) then "msg_a" else "msg_b";
     env_now := fun i => 2000 + Z.of_nat i;
     env_elapsed_ms := fun _ => 1200 |}.

Definition quota_exception : PyException :=
  {| exc_class := "RateLimitError";
     exc_message := "You exceeded your current quota";
     exc_status_code := Some 429; exc_retry_count := None |}.

(** ** Dictionaries: lookup after update *)

Section odict_facts.
Context {K : Type} `{EqDecision K} {V : Type}.
Implicit Types (k : K) (v : V) (d : odict K V).

Lemma odict_get_set_eq k v d : odict_get k (odict_set k v d) = Some v.
Proof.
  induction d as [|[k' v'] d IH]; simpl.
  - by rewrite decide_True.
  - destruct (decide (k = k')) as [->|Hne]; simpl.
    + by rewrite decide_True.
    + by rewrite decide_False.
Qed.

Lemma odict_get_set_ne k k' v d :
  k <> k' -> odict_get k' (odict_set k v d) = odict_get k' d.
Proof.
  intros Hne. induction d as [|[k0 v0] d IH]; simpl.
  - rewrite decide_False; [done | congruence].
  - destruct (decide (k = k0)) as [->|Hk]; simpl.
    + rewrite !decide_False; [done | congruence | congruence].
    + destruct (decide (k' = k0)); [done | apply IH].
Qed.

Lemma odict_get_del_eq k d : odict_get k (odict_del k d) = None.
Proof.
  induction d as [|[k' v'] d IH]; simpl; [done |].
  destruct (decide (k = k')) as [->|Hne].
  - rewrite bool_decide_eq_true_2; [| done]. apply IH.
  - rewrite bool_decide_eq_false_2; [| done]. simpl.
    by rewrite decide_False.
Qed.

Lemma odict_get_del_ne k k' d :
  k <> k' -> odict_get k' (odict_del k d) = odict_get k' d.
Proof.
  intros Hne. induction d as [|[k0 v0] d IH]; simpl; [done |].
  destruct (decide (k = k0)) as [->|Hk].
  - rewrite bool_decide_eq_true_2; [| done]. simpl.
    rewrite decide_False; [apply IH | congruence].
  - rewrite bool_decide_eq_false_2; [| done]. simpl.
    destruct (decide (k' = k0)); [done | apply IH].
Qed.


Lemma odict_get_In k v d : odict_get k d = Some v -> In (k, v) d.
Proof.
  induction d as [|[k' v'] d IH]; simpl; [done |].
  destruct (decide (k = k')) as [->|Hne].
  - intros [= ->]. by left.
  - intros Hget. right. by apply IH.
Qed.

Lemma Forall_values_set (P : V -> Prop) k v d :
  P v -> Forall P (odict_values d) -> Forall P (odict_values (odict_set k v d)).
Proof.
  intros Hv. unfold odict_values.
  induction d as [|[k' v'] d IH]; simpl; intros Hd.
  - by constructor.
  - inversion Hd; subst. destruct (decide (k = k')); simpl; constructor; auto.
Qed.

Lemma Forall_values_del (P : V -> Prop) k d :
  Forall P (odict_values d) -> Forall P (odict_values (odict_del k d)).
Proof.
  unfold odict_values, odict_del.
  induction d as [|[k' v'] d IH]; simpl; intros Hd; [done |].
  inversion Hd; subst.
  destruct (bool_decide (k = k')); simpl; [auto | constructor; auto].
Qed.

Lemma Forall_values_get (P : V -> Prop) k v d :
  Forall P (odict_values d) -> odict_get k d = Some v -> P v.
Proof.
  intros Hd Hget. apply odict_get_In in Hget.
  rewrite List.Forall_forall in Hd. apply Hd.
  unfold odict_values. apply in_map_iff. by exists (k, v).
Qed.
End odict_facts.

(** ** Records: what the assignments keep *)

Lemma fold_add_acc xs : forall acc,
  fold_left Z.add xs acc = acc + fold_left Z.add xs 0.
Proof.
  induction xs as [|y xs IH]; intros acc; simpl; [lia |].
  rewrite (IH (acc + y)), (IH (0 + y)). lia.
Qed.

Lemma sum_int_cons x xs : sum_int (x :: xs) = x + sum_int xs.
Proof. unfold sum_int. simpl. apply fold_add_acc. Qed.

Lemma log_tools_fields (tool_calls : list ToolCall) c :
  let c' :=
    fold_left
      (fun c tool_call => set_tools_used (tools_used c ++ [tool_name tool_call]) c)
      tool_calls c in
  total_input_tokens c' = total_input_tokens c /\
  total_output_tokens c' = total_output_tokens c /\
  total_tokens c' = total_tokens c /\
  cost_estimate c' = cost_estimate c /\
  session_end c' = session_end c /\
  messages c' = messages c /\
  agent_id c' = agent_id c.
Proof.
  revert c. induction tool_calls as [|tc tcs IH]; intros c; simpl; [done |].
  specialize (IH (set_tools_used (tools_used c ++ [tool_name tc]) c)).
  simpl in IH. exact IH.
Qed.

(** The fields of a record after [add_message] stored [message] in it. *)
Lemma record_message_fields message c :
  let c' := record_message message c in
  messages c' = messages c ++ [message] /\
  session_end c' = session_end c /\
  cost_estimate c' = cost_estimate c /\
  agent_id c' = agent_id c /\
  total_input_tokens c' =
    total_input_tokens c +
    match LLMMessage.tokens message with
    | Some tokens =>
        if (String.eqb (LLMMessage.role message) "user"
            || String.eqb (LLMMessage.role message) "system")%bool
        then tokens else 0
    | None => 0
    end /\
  total_output_tokens c' =
    total_output_tokens c +
    match LLMMessage.tokens message with
    | Some tokens =>
        if (String.eqb (LLMMessage.role message) "user"
            || String.eqb (LLMMessage.role message) "system")%bool
        then 0
        else if String.eqb (LLMMessage.role message) "assistant"
        then tokens else 0
    | None => 0
    end /\
  (total_tokens c = total_input_tokens c + total_output_tokens c ->
   total_tokens c' = total_input_tokens c' + total_output_tokens c').
Proof.
  unfold record_message.
  destruct (LLMMessage.tool_calls message) as [tcs|];
    [match goal with
     | |- context [fold_left ?f tcs ?c0] =>
         destruct (log_tools_fields tcs c0) as (-> & -> & -> & -> & -> & -> & ->)
     end |];
    (destruct (LLMMessage.function_call message) as [fc|];
       [destruct (decide (fc = ∅)) |]);
    (destruct (LLMMessage.tokens message) as [tokens|];
       [destruct (Z.eqb_spec tokens 0) as [->|Hne];
          [| unfold update_token_counts;
             destruct (String.eqb (LLMMessage.role message) "user"
                       || String.eqb (LLMMessage.role message) "system")%bool;
             [| destruct (String.eqb (LLMMessage.role message) "assistant")]]
       |]);
    simpl; repeat split; try done;
    repeat match goal with
           | |- context [if ?b then _ else _] => destruct b
           end; lia.
Qed.

Lemma record_message_consistent message c :
  tokens_and_cost_consistent c ->
  tokens_and_cost_consistent (record_message message c).
Proof.
  intros [Htok Hcost].
  destruct (record_message_fields message c)
    as (_ & Hend & Hc & _ & _ & _ & Htot).
  split; [by apply Htot |].
  rewrite Hend, Hc. exact Hcost.
Qed.

Lemma call_consistent self c :
  Forall tokens_and_cost_consistent (odict_values (communications self)) ->
  Forall tokens_and_cost_consistent
         (odict_values (communications (call self c))).
Proof.
  intros Hall. destruct c; simpl.
  - apply Forall_values_set; [| done]. split; simpl; [lia | done].
  - unfold add_message.
    destruct (odict_get comm_id (communications self)) as [c|] eqn:Hget;
      simpl; [| done].
    apply Forall_values_set; [| done].
    apply record_message_consistent.
    by eapply Forall_values_get.
  - unfold complete_communication.
    destruct (odict_get comm_id (communications self)) as [c|] eqn:Hget;
      simpl; [| done].
    pose proof (Forall_values_get _ _ _ _ Hall Hget) as [Htok Hcost].
    destruct (messages c) eqn:Hmsgs; simpl.
    + by apply Forall_values_del.
    + destruct (_calculate_cost _); simpl;
        (apply Forall_values_set; [| done]); split; simpl; done.
Qed.

Lemma run_consistent calls : forall self,
  Forall tokens_and_cost_consistent (odict_values (communications self)) ->
  Forall tokens_and_cost_consistent
         (odict_values (communications (run self calls))).
Proof.
  induction calls as [|c calls IH]; intros self Hall; simpl; [done |].
  apply IH. by apply call_consistent.
Qed.

(** C4: in every state the tracker reaches, every stored Communication has
    [total_tokens = total_input_tokens + total_output_tokens], and its
    [cost_estimate] is 0 as long as its [session_end] is unset. *)
Theorem tokens_and_cost_invariant self comm_id c :
  reachable self ->
  get_communication self comm_id = Some c ->
  total_tokens c = total_input_tokens c + total_output_tokens c /\
  (session_end c = None -> cost_estimate c = 0%float).
Proof.
  intros (url & calls & ->) Hget.
  eapply (Forall_values_get tokens_and_cost_consistent); [| exact Hget].
  apply run_consistent. constructor.
Qed.

Lemma tokens_and_cost_invariant_witness :
  reachable (run (new_tracker None) session_open) /\
  match get_communication (run (new_tracker None) session_open) "comm_1" with
  | Some c =>
      total_tokens c = total_input_tokens c + total_output_tokens c /\
      (session_end c = None -> cost_estimate c = 0%float)
  | None => False
  end.
Proof.
  assert (Hreach : reachable (run (new_tracker None) session_open))
    by (exists None, session_open; reflexivity).
  split; [exact Hreach |].
  destruct (get_communication _ "comm_1") as [c|] eqn:Hget.
  - exact (tokens_and_cost_invariant _ _ _ Hreach Hget).
  - vm_compute in Hget. discriminate Hget.
Defined.

(** ** Token accounting *)

Lemma add_message_lookup self message_id now comm_id role content tokens
    function_call tool_calls c :
  get_communication self comm_id = Some c ->
  get_communication
    (add_message self message_id now comm_id role content tokens
       function_call tool_calls).1 comm_id =
  Some (record_message
          (LLMMessage.mk message_id now role content tokens function_call
             tool_calls) c).
Proof.
  unfold get_communication, add_message. intros ->. simpl.
  apply odict_get_set_eq.
Qed.

(** C1: a sequence of [add_message] calls on a stored Communication adds
    to [total_input_tokens] the token counts supplied with role "user" or
    "system" and to [total_output_tokens] those supplied with role
    "assistant"; calls with role "function" change neither total. *)
Theorem add_message_accumulates_tokens self comm_id c calls :
  get_communication self comm_id = Some c ->
  Forall (adds_message_to comm_id) calls ->
  exists c',
    get_communication (run self calls) comm_id = Some c' /\
    total_input_tokens c' =
      total_input_tokens c + tokens_supplied ["user"; "system"] calls /\
    total_output_tokens c' =
      total_output_tokens c + tokens_supplied ["assistant"] calls /\
    (Forall (fun cl => call_role cl = Some "function") calls ->
     total_input_tokens c' = total_input_tokens c /\
     total_output_tokens c' = total_output_tokens c).
Proof.
  intros Hget Hcalls. revert self c Hget.
  induction Hcalls as [|cl calls Hcl _ IH]; intros self c Hget.
  - exists c. unfold tokens_supplied, sum_int. simpl.
    repeat split; try done; lia.
  - destruct cl; simpl in Hcl; try done. subst comm_id0.
    pose proof (add_message_lookup self message_id now comm_id role content
                  tokens function_call tool_calls c Hget) as Hstep.
    destruct (record_message_fields
                (LLMMessage.mk message_id now role content tokens
                   function_call tool_calls) c)
      as (_ & _ & _ & _ & Hin & Hout & _).
    simpl in Hin, Hout.
    destruct (IH _ _ Hstep) as (c' & Hget' & Hin' & Hout' & Hfun).
    exists c'. split; [exact Hget' |].
    unfold tokens_supplied in *. simpl List.map. rewrite !sum_int_cons.
    assert (Hi : total_input_tokens c' =
                 total_input_tokens c +
                 (tokens_of ["user"; "system"]
                    (AddMessage message_id now comm_id role content tokens
                       function_call tool_calls) +
                  sum_int (List.map (tokens_of ["user"; "system"]) calls))).
    { rewrite Hin', Hin. simpl. destruct tokens; [| lia].
      rewrite orb_false_r. lia. }
    assert (Ho : total_output_tokens c' =
                 total_output_tokens c +
                 (tokens_of ["assistant"]
                    (AddMessage message_id now comm_id role content tokens
                       function_call tool_calls) +
                  sum_int (List.map (tokens_of ["assistant"]) calls))).
    { rewrite Hout', Hout. simpl. destruct tokens; [| lia].
      rewrite orb_false_r.
      destruct (String.eqb_spec role "user") as [->|]; simpl; [lia |].
      destruct (String.eqb_spec role "system") as [->|]; simpl; lia. }
    split; [exact Hi |]. split; [exact Ho |].
    intros Hall. inversion Hall as [|? ? Hrole Hrest]; subst.
    destruct (Hfun Hrest) as [Hi0 Ho0].
    rewrite Hi0, Ho0, Hin, Hout. simpl in Hrole. injection Hrole as ->.
    destruct tokens; simpl; lia.
Qed.

Lemma add_message_accumulates_tokens_witness :
  match get_communication (run (new_tracker None) session_open) "comm_1" with
  | Some c' => total_input_tokens c' = 50 /\ total_output_tokens c' = 30
  | None => False
  end.
Proof.
  pose (started := run (new_tracker None) (take 1 session_open)).
  assert (Hget : exists c, get_communication started "comm_1" = Some c /\
                           total_input_tokens c = 0 /\
                           total_output_tokens c = 0)
    by (eexists; repeat split; reflexivity).
  destruct Hget as (c & Hget & Hin0 & Hout0).
  assert (Hcalls : Forall (adds_message_to "comm_1") (drop 1 session_open))
    by (repeat constructor).
  destruct (add_message_accumulates_tokens started "comm_1" c
              (drop 1 session_open) Hget Hcalls)
    as (c' & Hget' & Hin & Hout & _).
  change (run started (drop 1 session_open))
    with (run (new_tracker None) session_open) in Hget'.
  rewrite Hget'. rewrite Hin, Hout, Hin0, Hout0. split; reflexivity.
Defined.

(** ** Completion *)

Lemma complete_empty self now comm_id final_response response_time_ms
    confidence_score error_message error_type error_code retry_count c :
  get_communication self comm_id = Some c ->
  messages c = [] ->
  complete_communication self now comm_id final_response response_time_ms
    confidence_score error_message error_type error_code retry_count =
  {| completed_tracker :=
       {| communications := odict_del comm_id (communications self);
          active_sessions := active_sessions self;
          webhook_url := webhook_url self |};
     webhooks_submitted := [];
     raised := None |}.
Proof.
  unfold get_communication, complete_communication. intros -> ->. done.
Qed.

(** The methods that leave the index alone, and the one that removes from
    it. *)
Lemma entry_removed_by_completion self cl agent :
  is_Some (active_sessions self !! agent) ->
  active_sessions (call self cl) !! agent = None ->
  completes cl /\
  exists c, get_communication self (call_target cl) = Some c /\
            agent_id c = agent /\ messages c <> [].
Proof.
  intros [v Hv] Hgone.
  destruct cl as [cid t aid ? ? ? ? ? ? ? ? ?|mid t cid ? ? ? ? ?
                  |t cid ? ? ? ? ? ? ?]; simpl in *.
  - destruct (decide (aid = agent)) as [->|Hne].
    + by rewrite lookup_insert_eq in Hgone.
    + rewrite lookup_insert_ne in Hgone; congruence.
  - unfold add_message in Hgone.
    destruct (odict_get cid (communications self)); simpl in Hgone;
      congruence.
  - split; [done |]. unfold get_communication.
    unfold complete_communication in Hgone.
    destruct (odict_get cid (communications self)) as [c|];
      simpl in Hgone; [| congruence].
    destruct (messages c) eqn:Hmsgs; simpl in Hgone; [congruence |].
    exists c. split; [done |].
    destruct (_calculate_cost _); simpl in Hgone; [| congruence].
    destruct (active_sessions self !! LLMCommunication.agent_id c) eqn:Ha;
      simpl in Hgone; [| congruence].
    destruct (decide (LLMCommunication.agent_id c = agent)) as [Heq|Hne].
    + split; [exact Heq |]. rewrite Hmsgs. discriminate.
    + rewrite lookup_delete_ne in Hgone; congruence.
Qed.

(** C10: completing a Communication that has no message leaves the
    active-session index as it was, so the entry of its agent stays and
    is counted in the [active] figure of the statistics; an entry leaves
    the index only through a completion of a Communication of that agent
    that has messages. *)
Theorem complete_empty_keeps_active_entry self now comm_id final_response
    response_time_ms confidence_score error_message error_type error_code
    retry_count c :
  get_communication self comm_id = Some c ->
  messages c = [] ->
  let self' :=
    completed_tracker
      (complete_communication self now comm_id final_response
         response_time_ms confidence_score error_message error_type
         error_code retry_count) in
  active_sessions self' = active_sessions self /\
  (active_sessions self !! agent_id c = Some comm_id ->
   active_sessions self' !! agent_id c = Some comm_id) /\
  (forall s, get_communication_stats self' = Ok (StatsFull s) ->
             active s = Z.of_nat (size (active_sessions self))) /\
  (forall cl agent,
     is_Some (active_sessions self' !! agent) ->
     active_sessions (call self' cl) !! agent = None ->
     completes cl /\
     exists c', get_communication self' (call_target cl) = Some c' /\
                agent_id c' = agent /\ messages c' <> []).
Proof.
  intros Hget Hempty self'. subst self'.
  rewrite (complete_empty _ _ _ _ _ _ _ _ _ _ _ Hget Hempty). simpl.
  split; [done |]. split; [done |]. split.
  - intros s. unfold get_communication_stats. simpl.
    destruct (List.filter is_completed _); [done |].
    destruct (py_truediv _ _) as [avg|]; simpl; [| done].
    destruct (py_int avg); simpl; [| done].
    by intros [= <-].
  - intros cl agent Hsome Hgone.
    exact (entry_removed_by_completion
             {| communications := odict_del comm_id (communications self);
                active_sessions := active_sessions self;
                webhook_url := webhook_url self |} cl agent Hsome Hgone).
Qed.

Lemma complete_empty_keeps_active_entry_witness :
  let self := run (new_tracker None) phantom_session in
  let self' :=
    completed_tracker
      (complete_communication self 1005 "comm_2" "" 0 None None None None 0) in
  active_sessions self' !! "a2" = Some "comm_2" /\
  get_communication self' "comm_2" = None.
Proof.
  intros self self'.
  assert (Hget : exists c, get_communication self "comm_2" = Some c /\
                           messages c = [] /\ agent_id c = "a2")
    by (eexists; repeat split; reflexivity).
  destruct Hget as (c & Hget & Hempty & Hagent).
  destruct (complete_empty_keeps_active_entry self 1005 "comm_2" "" 0 None
              None None None 0 c Hget Hempty) as (_ & Hkept & _ & _).
  rewrite Hagent in Hkept. split; [apply Hkept; reflexivity |].
  reflexivity.
Defined.

(** C3, as stated, fails: an agent starts a second session while its
    first is open, so its index entry points at the second; completing
    the first, which has a message, removes the entry all the same. *)
Lemma complete_removes_newer_entry :
  let self := run (new_tracker None) overlapping_sessions in
  let self' :=
    completed_tracker
      (complete_communication self 1003 "comm_1" "done" 10 None None None
         None 0) in
  active_sessions self !! "a1" = Some "comm_2" /\
  option_map (fun c => (agent_id c, length (messages c)))
             (get_communication self "comm_1") = Some ("a1", 1%nat) /\
  active_sessions self' !! "a1" = None /\
  active_sessions self' !! "a1" <> active_sessions self !! "a1".
Proof. vm_compute. repeat split; discriminate. Qed.

(** C3, amended: when [complete_communication] finalises a Communication
    that has messages, the index loses the entry of the Communication's
    agent, whichever communication the entry points at, and keeps every
    other entry; when the cost computation raises, the index is as it
    was. *)
Theorem complete_removes_agent_entry self now comm_id final_response
    response_time_ms confidence_score error_message error_type error_code
    retry_count c :
  get_communication self comm_id = Some c ->
  messages c <> [] ->
  let done :=
    complete_communication self now comm_id final_response response_time_ms
      confidence_score error_message error_type error_code retry_count in
  active_sessions (completed_tracker done) =
    match raised done with
    | None => delete (agent_id c) (active_sessions self)
    | Some _ => active_sessions self
    end.
Proof.
  unfold get_communication, complete_communication. intros -> Hmsgs.
  destruct (messages c) eqn:Hm; [done |]. simpl.
  destruct (_calculate_cost _); simpl; [| done].
  destruct (active_sessions self !! agent_id c) eqn:Ha; [done |].
  symmetry. by apply delete_id.
Qed.

Lemma complete_removes_agent_entry_witness :
  let self := run (new_tracker None) overlapping_sessions in
  let done :=
    complete_communication self 1003 "comm_1" "done" 10 None None None None
      0 in
  active_sessions (completed_tracker done) !! "a1" = None.
Proof.
  intros self done.
  assert (Hget : exists c, get_communication self "comm_1" = Some c /\
                           messages c <> [] /\ agent_id c = "a1")
    by (eexists; split; [reflexivity | split; [discriminate | reflexivity]]).
  destruct Hget as (c & Hget & Hmsgs & Hagent).
  pose proof (complete_removes_agent_entry self 1003 "comm_1" "done" 10 None
                None None None 0 c Hget Hmsgs) as Hidx.
  cbv zeta in Hidx.
  assert (Hraised : raised done = None) by (vm_compute; reflexivity).
  subst done. rewrite Hidx, Hraised, Hagent. apply lookup_delete_eq.
Defined.

(** ** Cost *)

Lemma calculate_cost_priced comm p q_in q_out :
  priced (provider comm) (model comm) = Some p ->
  py_truediv (total_input_tokens comm) 1000 = Ok q_in ->
  py_truediv (total_output_tokens comm) 1000 = Ok q_out ->
  _calculate_cost comm = Ok (q_in * input p + q_out * output p)%float.
Proof.
  unfold priced, _calculate_cost.
  destruct (odict_get (provider comm) pricing) as [models|]; simpl; [| done].
  intros -> -> ->. reflexivity.
Qed.

Lemma calculate_cost_unpriced comm :
  priced (provider comm) (model comm) = None ->
  _calculate_cost comm = Ok 0%float.
Proof.
  unfold priced, _calculate_cost.
  destruct (odict_get (provider comm) pricing) as [models|]; simpl; [| done].
  by intros ->.
Qed.

Lemma calculate_cost_gpt4 comm :
  provider comm = OPENAI -> model comm = "gpt-4" ->
  total_input_tokens comm = 1000 -> total_output_tokens comm = 1000 ->
  _calculate_cost comm = Ok 0.09%float.
Proof.
  intros Hp Hm Hin Hout. unfold _calculate_cost.
  rewrite Hp, Hm, Hin, Hout. vm_compute. reflexivity.
Qed.

(** What a completion that computes the cost [cost] stores. *)
Lemma complete_stores_cost self now comm_id final_response response_time_ms
    confidence_score error_message error_type error_code retry_count c cost :
  get_communication self comm_id = Some c ->
  messages c <> [] ->
  _calculate_cost c = Ok cost ->
  let done :=
    complete_communication self now comm_id final_response response_time_ms
      confidence_score error_message error_type error_code retry_count in
  raised done = None /\
  get_communication (completed_tracker done) comm_id =
    Some (set_cost_estimate cost
            (set_outcome now final_response response_time_ms confidence_score
               error_message error_type error_code retry_count c)).
Proof.
  unfold get_communication, complete_communication. intros -> Hmsgs Hcost.
  destruct (messages c) eqn:Hm; [done |].
  change (_calculate_cost
            (set_outcome now final_response response_time_ms confidence_score
               error_message error_type error_code retry_count c))
    with (_calculate_cost c).
  rewrite Hcost. simpl. split; [done |]. apply odict_get_set_eq.
Qed.

(** C5: the cost is [(input_tokens / 1000) * input_price +
    (output_tokens / 1000) * output_price] for a (provider, model) pair of
    the price table and 0, without an exception, for any other pair; for
    openai, "gpt-4", 1000 input and 1000 output tokens the cost, and the
    [cost_estimate] a completion stores, is 0.09, and the [cost_estimate]
    stored for a pair that is not in the table is 0. *)
Theorem calculate_cost_spec :
  (forall comm p q_in q_out,
     priced (provider comm) (model comm) = Some p ->
     py_truediv (total_input_tokens comm) 1000 = Ok q_in ->
     py_truediv (total_output_tokens comm) 1000 = Ok q_out ->
     _calculate_cost comm = Ok (q_in * input p + q_out * output p)%float) /\
  (forall comm,
     priced (provider comm) (model comm) = None ->
     _calculate_cost comm = Ok 0%float) /\
  (forall comm,
     provider comm = OPENAI -> model comm = "gpt-4" ->
     total_input_tokens comm = 1000 -> total_output_tokens comm = 1000 ->
     _calculate_cost comm = Ok 0.09%float) /\
  (forall self now comm_id final_response response_time_ms confidence_score
          error_message error_type error_code retry_count c,
     get_communication self comm_id = Some c ->
     messages c <> [] ->
     let done :=
       complete_communication self now comm_id final_response
         response_time_ms confidence_score error_message error_type
         error_code retry_count in
     (provider c = OPENAI -> model c = "gpt-4" ->
      total_input_tokens c = 1000 -> total_output_tokens c = 1000 ->
      raised done = None /\
      cost_estimate <$> get_communication (completed_tracker done) comm_id =
        Some 0.09%float) /\
     (priced (provider c) (model c) = None ->
      raised done = None /\
      cost_estimate <$> get_communication (completed_tracker done) comm_id =
        Some 0%float)).
Proof.
  split; [exact calculate_cost_priced |].
  split; [exact calculate_cost_unpriced |].
  split; [exact calculate_cost_gpt4 |].
  intros self now comm_id final_response response_time_ms confidence_score
    error_message error_type error_code retry_count c Hget Hmsgs done.
  split.
  - intros Hp Hm Hin Hout.
    destruct (complete_stores_cost self now comm_id final_response
                response_time_ms confidence_score error_message error_type
                error_code retry_count c _ Hget Hmsgs
                (calculate_cost_gpt4 c Hp Hm Hin Hout)) as [Hr Hc].
    split; [exact Hr |]. subst done. by rewrite Hc.
  - intros Hnone.
    destruct (complete_stores_cost self now comm_id final_response
                response_time_ms confidence_score error_message error_type
                error_code retry_count c _ Hget Hmsgs
                (calculate_cost_unpriced c Hnone)) as [Hr Hc].
    split; [exact Hr |]. subst done. by rewrite Hc.
Qed.

Lemma calculate_cost_spec_witness :
  let self := run (new_tracker None) session_thousand in
  let done :=
    complete_communication self 1003 "comm_1" "answer" 1200 None None None
      None 0 in
  raised done = None /\
  cost_estimate <$> get_communication (completed_tracker done) "comm_1" =
    Some 0.09%float.
Proof.
  intros self done.
  assert (Hget : exists c, get_communication self "comm_1" = Some c /\
                           messages c <> [] /\
                           provider c = OPENAI /\ model c = "gpt-4" /\
                           total_input_tokens c = 1000 /\
                           total_output_tokens c = 1000)
    by (eexists; split; [reflexivity |]; split; [discriminate |];
        repeat split; reflexivity).
  destruct Hget as (c & Hget & Hmsgs & Hp & Hm & Hin & Hout).
  destruct calculate_cost_spec as (_ & _ & _ & Hcomplete).
  exact (proj1 (Hcomplete self 1003 "comm_1" "answer" 1200 None None None
                  None 0 c Hget Hmsgs) Hp Hm Hin Hout).
Defined.

(** ** Statistics *)

Lemma py_truediv_raises a b e :
  py_truediv a b = Raise e ->
  (b = 0 /\ e = ZeroDivisionError) \/ e = OverflowError.
Proof.
  unfold py_truediv. destruct (Z.eqb_spec b 0) as [->|Hb].
  - intros [= <-]. by left.
  - destruct (binary_normalize _ _ _ _ _); intros [= <-]. by right.
Qed.

Lemma py_int_raises x e :
  py_int x = Raise e -> exc_class e <> "ZeroDivisionError".
Proof.
  unfold py_int. destruct (Prim2SF x); intros [= <-]; discriminate.
Qed.

(** Rounding a mantissa that is not negative never gives NaN, so the
    float of a quotient is a number or an infinity. *)
Lemma shr_1_nonneg mrs : 0 <= shr_m mrs -> 0 <= shr_m (shr_1 mrs).
Proof.
  destruct mrs as [[|[p|p|]|p] r s]; simpl; lia.
Qed.

Lemma iter_shr_1_nonneg p mrs :
  0 <= shr_m mrs -> 0 <= shr_m (SpecFloat.iter_pos shr_1 p mrs).
Proof.
  revert mrs. induction p as [p IH|p IH|]; intros mrs Hm; simpl.
  - apply IH, IH. by apply shr_1_nonneg.
  - by apply IH, IH.
  - by apply shr_1_nonneg.
Qed.

Lemma shr_fexp_nonneg m e l :
  0 <= m -> 0 <= shr_m (shr_fexp prec emax m e l).1.
Proof.
  intros Hm. unfold shr_fexp, shr.
  assert (Hrec : 0 <= shr_m (shr_record_of_loc m l))
    by (destruct l as [|[]]; exact Hm).
  destruct (fexp prec emax (Zdigits2 m + e) - e); simpl; try done.
  by apply iter_shr_1_nonneg.
Qed.

Lemma round_nearest_even_nonneg m l :
  0 <= m -> 0 <= round_nearest_even m l.
Proof.
  intros Hm. unfold round_nearest_even.
  destruct l as [|[]]; try destruct (Z.even m); lia.
Qed.

Lemma binary_round_aux_not_nan sx mx ex lx :
  0 <= mx -> binary_round_aux prec emax sx mx ex lx <> S754_nan.
Proof.
  intros Hm. unfold binary_round_aux.
  pose proof (shr_fexp_nonneg mx ex lx Hm) as H1.
  destruct (shr_fexp prec emax mx ex lx) as [mrs' e'].
  simpl in H1.
  pose proof (shr_fexp_nonneg _ e' loc_Exact
                (round_nearest_even_nonneg _ (loc_of_shr_record mrs') H1))
    as H2.
  destruct (shr_fexp prec emax _ e' loc_Exact) as [mrs'' e''].
  simpl in H2.
  destruct (shr_m mrs''); [done | | lia].
  by destruct (e'' <=? emax - prec).
Qed.

Lemma binary_round_not_nan sx mx ex :
  binary_round prec emax sx mx ex <> S754_nan.
Proof.
  unfold binary_round. destruct (shl_align _ _ _) as [mz ez].
  by apply binary_round_aux_not_nan.
Qed.

Lemma binary_normalize_not_nan m e szero :
  binary_normalize prec emax m e szero <> S754_nan.
Proof.
  destruct m; simpl; [done | |]; apply binary_round_not_nan.
Qed.

Lemma SF2Prim_not_nan sf : sf <> S754_nan -> Prim2SF (SF2Prim sf) <> S754_nan.
Proof.
  intros Hsf.
  assert (Hld : forall m e,
            Prim2SF (FloatOps.Z.ldexp (of_uint63 (Uint63.of_Z (Z.pos m))) e)
              <> S754_nan).
  { intros m e. rewrite Z_ldexp_spec, of_uint63_spec.
    pose proof (binary_normalize_not_nan
                  (Uint63.to_Z (Uint63.of_Z (Z.pos m))) 0 false) as Hn.
    destruct (binary_normalize _ _ _ _ _); simpl; try done.
    apply binary_round_not_nan. }
  destruct sf as [[]|[]| |[] m e]; simpl; try done.
  - rewrite opp_spec. specialize (Hld m e).
    by destruct (Prim2SF _).
  - apply Hld.
Qed.

Lemma py_truediv_value a b x :
  py_truediv a b = Ok x -> exists sf, sf <> S754_nan /\ x = SF2Prim sf.
Proof.
  unfold py_truediv. destruct (b =? 0); [done |]. cbv zeta.
  match goal with
  | |- context [binary_normalize ?p ?em ?m ?e ?s] =>
      pose proof (binary_normalize_not_nan m e s) as Hn;
      destruct (binary_normalize p em m e s) as [sz|si| |sx mx ex]
  end; try done; intros [= <-].
  - by exists (S754_zero sz).
  - by exists (S754_finite sx mx ex).
Qed.

(** [int(a / b)] raises only when the quotient is out of range. *)
Lemma py_int_of_quotient a b x e :
  py_truediv a b = Ok x -> py_int x = Raise e ->
  exc_class e = "OverflowError".
Proof.
  intros (sf & Hsf & ->)%py_truediv_value. unfold py_int.
  pose proof (SF2Prim_not_nan sf Hsf) as Hx.
  destruct (Prim2SF (SF2Prim sf)); try done. by intros [= <-].
Qed.

(** C7: the statistics report as [total] the number of all stored
    Communications, open ones included; with no completed Communication,
    however many open ones are stored, they are the minimal shape
    [{total: 0, completed: 0}]; and no call divides by zero.  As soon as a
    completed Communication is stored the statistics are the full shape,
    with that [total], unless the average is out of the float range and
    the call raises [OverflowError]. *)
Theorem stats_total_and_empty_shape self :
  (forall s, get_communication_stats self = Ok (StatsFull s) ->
             total s = len (communications self) /\
             completed s =
               len (List.filter is_completed
                      (odict_values (communications self)))) /\
  (List.filter is_completed (odict_values (communications self)) = [] ->
   get_communication_stats self = Ok StatsEmpty) /\
  (forall e, get_communication_stats self = Raise e ->
             exc_class e <> "ZeroDivisionError") /\
  (List.filter is_completed (odict_values (communications self)) <> [] ->
   (exists s, get_communication_stats self = Ok (StatsFull s) /\
              total s = len (communications self) /\
              completed s =
                len (List.filter is_completed
                       (odict_values (communications self)))) \/
   (exists e, get_communication_stats self = Raise e /\
              exc_class e = "OverflowError")).
Proof.
  unfold get_communication_stats.
  destruct (List.filter is_completed (odict_values (communications self)))
    as [|c0 completed_comms] eqn:Hcompleted.
  - repeat split; try done.
  - split; [| split; [done |]; split].
    + intros s.
      destruct (py_truediv _ _) as [avg|]; simpl; [| done].
      destruct (py_int avg); simpl; [| done].
      intros [= <-]. simpl. split; [| done].
      unfold len, odict_values. by rewrite length_map.
    + intros e.
      destruct (py_truediv _ _) as [avg|e'] eqn:Hdiv; simpl.
      * destruct (py_int avg) eqn:Hint; simpl; [done |].
        intros [= <-]. by eapply py_int_raises.
      * intros [= <-].
        apply py_truediv_raises in Hdiv as [[Hzero _]| ->]; [| discriminate].
        unfold len in Hzero. simpl in Hzero. lia.
    + intros _.
      destruct (py_truediv _ _) as [avg|e'] eqn:Hdiv; simpl.
      * destruct (py_int avg) as [average|e'] eqn:Hint; simpl.
        -- left. eexists. split; [reflexivity |]. simpl. split; [| done].
           unfold len, odict_values. by rewrite length_map.
        -- right. exists e'. split; [done |].
           by eapply py_int_of_quotient.
      * right. exists e'. split; [done |].
        apply py_truediv_raises in Hdiv as [[Hzero _]| ->]; [| done].
        unfold len in Hzero. simpl in Hzero. lia.
Qed.

Lemma stats_total_and_empty_shape_witness :
  get_communication_stats (run (new_tracker None) session_open) =
    Ok StatsEmpty /\
  match get_communication_stats (run (new_tracker None) phantom_session) with
  | Ok (StatsFull s) => total s = 2 /\ completed s = 1
  | _ => False
  end /\
  match get_communication_stats (run (new_tracker None) session_errors) with
  | Ok (StatsFull s) => total s = 3 /\ completed s = 3
  | _ => False
  end.
Proof.
  split; [| split].
  - apply (stats_total_and_empty_shape
             (run (new_tracker None) session_open)).
    reflexivity.
  - destruct (get_communication_stats (run (new_tracker None) phantom_session))
      as [[|s]|e] eqn:Hstats.
    + vm_compute in Hstats. discriminate Hstats.
    + destruct (proj1 (stats_total_and_empty_shape
                         (run (new_tracker None) phantom_session)) s Hstats)
        as [Htotal Hcompleted].
      rewrite Htotal, Hcompleted. split; reflexivity.
    + vm_compute in Hstats. discriminate Hstats.
  - assert (Hsome : List.filter is_completed
                      (odict_values
                         (communications
                            (run (new_tracker None) session_errors))) <> [])
      by (vm_compute; discriminate).
    destruct (proj2 (proj2 (proj2 (stats_total_and_empty_shape
                                     (run (new_tracker None) session_errors))))
                Hsome)
      as [(s & -> & Htotal & Hcompleted)|(e & Hraise & _)].
    + rewrite Htotal, Hcompleted. split; reflexivity.
    + vm_compute in Hraise. discriminate Hraise.
Defined.

(** ** After completion *)

(** C8, as stated, fails: the record of a completed Communication that
    has messages changes when [add_message] is called on it again (a
    message and its tokens are added) and when it is completed a second
    time (the outcome is overwritten). *)
Lemma completed_record_changes :
  let self := run (new_tracker None) session_done in
  let again :=
    call self
      (AddMessage "msg_3" 1004 "comm_1" "user" "one more" (Some 7) None None) in
  let twice :=
    call self
      (CompleteCommunication 1005 "comm_1" "other" 9 None (Some "late") None
         None 1) in
  (fun c => (session_end c, length (messages c), total_tokens c,
             final_response c))
    <$> get_communication self "comm_1" =
    Some (Some 1003, 2%nat, 80, Some "recommend follow-up") /\
  (fun c => (session_end c, length (messages c), total_tokens c,
             final_response c))
    <$> get_communication again "comm_1" =
    Some (Some 1003, 3%nat, 87, Some "recommend follow-up") /\
  (fun c => (session_end c, length (messages c), total_tokens c,
             final_response c))
    <$> get_communication twice "comm_1" =
    Some (Some 1005, 2%nat, 80, Some "other") /\
  get_communication again "comm_1" <> get_communication self "comm_1" /\
  get_communication twice "comm_1" <> get_communication self "comm_1".
Proof.
  intros self again twice.
  assert (H1 : (fun c => (session_end c, length (messages c), total_tokens c,
                          final_response c))
                 <$> get_communication self "comm_1" =
               Some (Some 1003, 2%nat, 80, Some "recommend follow-up"))
    by (vm_compute; reflexivity).
  assert (H2 : (fun c => (session_end c, length (messages c), total_tokens c,
                          final_response c))
                 <$> get_communication again "comm_1" =
               Some (Some 1003, 3%nat, 87, Some "recommend follow-up"))
    by (vm_compute; reflexivity).
  assert (H3 : (fun c => (session_end c, length (messages c), total_tokens c,
                          final_response c))
                 <$> get_communication twice "comm_1" =
               Some (Some 1005, 2%nat, 80, Some "other"))
    by (vm_compute; reflexivity).
  repeat split; try assumption.
  - intros Heq. rewrite Heq, H1 in H2. discriminate H2.
  - intros Heq. rewrite Heq, H1 in H3. discriminate H3.
Qed.

Lemma call_keeps_completed self cl comm_id c :
  get_communication self comm_id = Some c ->
  session_end c <> None ->
  messages c <> [] ->
  ~ starts comm_id cl ->
  (exists c', get_communication (call self cl) comm_id = Some c' /\
              session_end c' <> None /\ messages c' <> []) /\
  (call_target cl <> comm_id ->
   get_communication (call self cl) comm_id = Some c).
Proof.
  unfold get_communication. intros Hget Hend Hmsgs Hstart.
  destruct cl as [cid t aid ? ? ? ? ? ? ? ? ?|mid t cid ? ? ? ? ?
                  |t cid ? ? ? ? ? ? ?]; simpl in *.
  - rewrite odict_get_set_ne by done. eauto.
  - unfold add_message.
    destruct (decide (cid = comm_id)) as [->|Hne].
    + rewrite Hget. simpl. rewrite odict_get_set_eq. split; [| done].
      eexists. split; [done |].
      match goal with
      | |- context [record_message ?m c] =>
          destruct (record_message_fields m c) as (-> & -> & _)
      end.
      split; [done |]. by destruct (messages c).
    + destruct (odict_get cid (communications self)); simpl;
        [rewrite odict_get_set_ne by done |]; eauto.
  - unfold complete_communication.
    destruct (decide (cid = comm_id)) as [->|Hne].
    + rewrite Hget. destruct (messages c) eqn:Hm; [done |].
      split; [| done].
      destruct (_calculate_cost _); simpl; rewrite odict_get_set_eq;
        eexists; (split; [done |]); simpl; rewrite ?Hm; done.
    + destruct (odict_get cid (communications self)) as [c0|]; simpl;
        [| eauto].
      destruct (messages c0); simpl;
        [rewrite odict_get_del_ne by done; eauto |].
      destruct (_calculate_cost _); simpl;
        rewrite odict_get_set_ne by done; eauto.
Qed.

(** C8, amended: once a Communication that has messages is completed, it
    stays in the store under its id, completed and with messages, through
    every later [add_message] and [complete_communication] and every
    [start_communication] that generates another id; and calls that name
    other communications leave its record as it is. *)
Theorem completed_record_retained calls : forall self comm_id c,
  get_communication self comm_id = Some c ->
  session_end c <> None ->
  messages c <> [] ->
  Forall (fun cl => ~ starts comm_id cl) calls ->
  (exists c', get_communication (run self calls) comm_id = Some c' /\
              session_end c' <> None /\ messages c' <> []) /\
  (Forall (fun cl => call_target cl <> comm_id) calls ->
   get_communication (run self calls) comm_id = Some c).
Proof.
  induction calls as [|cl calls IH]; intros self comm_id c Hget Hend Hmsgs Hno.
  - simpl. eauto.
  - inversion Hno as [|? ? Hcl Hrest]; subst. simpl.
    destruct (call_keeps_completed self cl comm_id c Hget Hend Hmsgs Hcl)
      as [(c1 & Hget1 & Hend1 & Hmsgs1) Hsame].
    destruct (IH _ _ _ Hget1 Hend1 Hmsgs1 Hrest) as [Hkept _].
    split; [exact Hkept |].
    intros Hother. inversion Hother as [|? ? Hne Hothers]; subst.
    specialize (Hsame Hne).
    by destruct (IH _ _ _ Hsame Hend Hmsgs Hrest) as [_ ->].
Qed.

Lemma completed_record_retained_witness :
  let self := run (new_tracker None) session_done in
  let calls :=
    [ StartCommunication "comm_2" 1004 "a2" "Dr. Y" "neurology" CREWAI OPENAI
        "gpt-4" None None "assessment" None;
      AddMessage "msg_3" 1005 "comm_2" "user" "hello" (Some 2) None None;
      CompleteCommunication 1006 "comm_2" "" 3 None None None None 0 ] in
  get_communication (run self calls) "comm_1" =
  get_communication self "comm_1".
Proof.
  intros self calls.
  assert (Hget : exists c, get_communication self "comm_1" = Some c /\
                           session_end c <> None /\ messages c <> [])
    by (eexists; split; [vm_compute; reflexivity | split; discriminate]).
  destruct Hget as (c & Hget & Hend & Hmsgs).
  assert (Hno : Forall (fun cl => ~ starts "comm_1" cl) calls)
    by (repeat constructor; simpl; (discriminate || tauto)).
  assert (Hother : Forall (fun cl => call_target cl <> "comm_1") calls)
    by (repeat constructor; simpl; discriminate).
  rewrite Hget.
  exact (proj2 (completed_record_retained calls self "comm_1" c Hget Hend
                  Hmsgs Hno) Hother).
Defined.

(** ** Error classification *)

Lemma prefix_empty s : String.prefix "" s = true.
Proof. by destruct s. Qed.

Lemma append_cons a (s t : string) :
  String.append (String a s) t = String a (String.append s t).
Proof. reflexivity. Qed.

Lemma append_empty (t : string) : String.append "" t = t.
Proof. reflexivity. Qed.

Lemma prefix_append sub s :
  String.prefix sub s = true <-> exists post, s = String.append sub post.
Proof.
  revert s. induction sub as [|a sub IH]; intros s.
  - rewrite prefix_empty. split; [| done]. intros _. by exists s.
  - destruct s as [|b s]; simpl.
    + split; [done | intros [post Hpost]; discriminate Hpost].
    + destruct (ascii_dec a b) as [->|Hne].
      * rewrite IH.
        split; intros [post Hpost]; exists post; rewrite append_cons in *;
          congruence.
      * split; [done |].
        intros [post Hpost]. rewrite append_cons in Hpost. congruence.
Qed.

(** [contains] is the substring test. *)
Lemma contains_spec sub s :
  contains sub s = true <->
  exists pre post, s = String.append pre (String.append sub post).
Proof.
  induction s as [|a s IH].
  - destruct sub as [|b sub]; simpl.
    + split; [| done]. intros _. by exists ""%string, ""%string.
    + split; [done |]. intros (pre & post & Hs).
      destruct pre; discriminate Hs.
  - change (contains sub (String a s))
      with (String.prefix sub (String a s) || contains sub s).
    rewrite orb_true_iff, prefix_append, IH. split.
    + intros [[post Hpost]|(pre & post & Hs)].
      * by exists ""%string, post.
      * exists (String a pre), post. by rewrite append_cons, Hs.
    + intros (pre & post & Hs). destruct pre as [|b pre].
      * left. by exists post.
      * right. exists pre, post. rewrite append_cons in Hs. congruence.
Qed.

Lemma append_assoc (s1 s2 s3 : string) :
  String.append (String.append s1 s2) s3 =
  String.append s1 (String.append s2 s3).
Proof.
  induction s1 as [|a s1 IH]; [done |].
  by rewrite !append_cons, IH.
Qed.

(** A message without "quota" has no "insufficient_quota" either. *)
Lemma contains_insufficient_quota s :
  contains "quota" s = false -> contains "insufficient_quota" s = false.
Proof.
  intros Hno. destruct (contains "insufficient_quota" s) eqn:Hyes; [| done].
  apply contains_spec in Hyes as (pre & post & ->).
  assert (contains "quota"
            (String.append pre (String.append "insufficient_quota" post)) = true)
    as Hquota; [| congruence].
  apply contains_spec. exists (String.append pre "insufficient_"), post.
  by rewrite append_assoc.
Qed.

Lemma ascii_lower_char_digit a b :
  is_digit a = true -> a = ascii_lower_char b <-> a = b.
Proof.
  unfold is_digit, ascii_lower_char. intros Ha.
  apply andb_true_iff in Ha as [Ha1 Ha2].
  apply N.leb_le in Ha1, Ha2.
  destruct ((65 <=? N_of_ascii b) && (N_of_ascii b <=? 90))%N eqn:Hb;
    [| done].
  apply andb_true_iff in Hb as [Hb1 Hb2]. apply N.leb_le in Hb1, Hb2.
  split; intros ->.
  - rewrite N_ascii_embedding in Ha2 by lia. lia.
  - lia.
Qed.

Lemma prefix_lower_digits d : forall s,
  all_digits d = true ->
  String.prefix d (ascii_lower s) = String.prefix d s.
Proof.
  induction d as [|a d IH]; intros s Hd.
  - by rewrite !prefix_empty.
  - simpl in Hd. apply andb_true_iff in Hd as [Ha Hd].
    destruct s as [|b s]; simpl; [done |].
    pose proof (ascii_lower_char_digit a b Ha) as Hiff.
    destruct (ascii_dec a (ascii_lower_char b)) as [Heq|Hne];
      destruct (ascii_dec a b) as [Heq'|Hne']; try tauto.
    by apply IH.
Qed.

(** Looking for digits in the lowered message or in the message itself is
    the same. *)
Lemma contains_lower_digits d s :
  all_digits d = true -> contains d (ascii_lower s) = contains d s.
Proof.
  intros Hd. induction s as [|b s IH].
  - done.
  - change (ascii_lower (String b s))
      with (String (ascii_lower_char b) (ascii_lower s)).
    change (contains d (String (ascii_lower_char b) (ascii_lower s)))
      with (String.prefix d (ascii_lower (String b s))
            || contains d (ascii_lower s)).
    change (contains d (String b s))
      with (String.prefix d (String b s) || contains d s).
    by rewrite IH, prefix_lower_digits.
Qed.

Lemma parse_by_rules (exception : PyException) :
  parse_openai_error exception = classify_by_rules exception.
Proof.
  unfold parse_openai_error, classify_by_rules, str_lower, ascii_StrLower.
  rewrite <- (contains_lower_digits "429" (exc_message exception)) by done.
  rewrite <- (contains_lower_digits "401" (exc_message exception)) by done.
  rewrite <- (contains_lower_digits "400" (exc_message exception)) by done.
  rewrite <- (contains_lower_digits "500" (exc_message exception)) by done.
  generalize (ascii_lower (exc_message exception)) as lowered.
  intros lowered.
  unfold classifier_rules, rule_matches. cbn [List.find existsb fst snd].
  repeat match goal with
         | |- context [contains ?needle lowered] =>
             destruct (contains needle lowered); cbn [orb]
         end; reflexivity.
Qed.

(** C6: with the ASCII lowering, the classifier is the ordered rule list
    of the specification, first match winning; and with any lowering, a
    message with "quota" in its lowered text is
    [quota_exceeded] with code 429 whatever else it contains (a "401"
    included); without "quota", a message with "rate limit" in its
    lowered text or with "429" is [rate_limit] with code 429; and a
    message that no rule matches is [unknown_error] with the status code
    of the exception, if it has one, and no code otherwise. *)
Theorem classifier_priority_order :
  (forall exception,
     parse_openai_error exception = classify_by_rules exception) /\
  (forall (lower : StrLower) exception,
     contains "quota" (str_lower (exc_message exception)) = true ->
     parse_openai_error exception =
       (exc_message exception, "quota_exceeded", Some 429)) /\
  (forall (lower : StrLower) exception,
     contains "quota" (str_lower (exc_message exception)) = false ->
     contains "rate limit" (str_lower (exc_message exception)) = true \/
     contains "429" (exc_message exception) = true ->
     parse_openai_error exception =
       (exc_message exception, "rate_limit", Some 429)) /\
  (forall (lower : StrLower) exception,
     no_rule_matches (exc_message exception) ->
     parse_openai_error exception =
       (exc_message exception, "unknown_error", exc_status_code exception)).
Proof.
  split; [exact parse_by_rules |]. split; [| split].
  - intros lower exception Hquota. unfold parse_openai_error.
    by rewrite Hquota, orb_true_r.
  - intros lower exception Hquota Hrate. unfold parse_openai_error.
    rewrite (contains_insufficient_quota _ Hquota), Hquota.
    cbn [orb]. destruct Hrate as [-> | ->]; [done |].
    by rewrite orb_true_r.
  - intros lower exception
      (H1 & H2 & H3 & H4 & H5 & H6 & H7 & H8 & H9 & H10).
    unfold parse_openai_error.
    by rewrite H1, H2, H3, H4, H5, H6, H7, H8, H9, H10.
Qed.

Lemma classifier_priority_order_witness :
  parse_openai_error
    {| exc_class := "RateLimitError";
       exc_message := "You exceeded your current QUOTA (401)";
       exc_status_code := Some 401; exc_retry_count := None |} =
    ("You exceeded your current QUOTA (401)", "quota_exceeded", Some 429) /\
  parse_openai_error
    {| exc_class := "RateLimitError";
       exc_message := "Rate limit reached, please retry. (429)";
       exc_status_code := None; exc_retry_count := None |} =
    ("Rate limit reached, please retry. (429)", "rate_limit", Some 429) /\
  parse_openai_error
    {| exc_class := "APIConnectionError";
       exc_message := "Connection reset by peer";
       exc_status_code := Some 503; exc_retry_count := None |} =
    ("Connection reset by peer", "unknown_error", Some 503).
Proof.
  destruct classifier_priority_order as (_ & Hquota & Hrate & Hunknown).
  split; [| split].
  - apply (Hquota ascii_StrLower). vm_compute. reflexivity.
  - apply (Hrate ascii_StrLower); [| left]; vm_compute; reflexivity.
  - apply (Hunknown ascii_StrLower). vm_compute. repeat split; reflexivity.
Defined.

(** ** The wrappers on a failing call *)

(** C9 fails on the AutoGen wrapper: it binds the classifier's result
    [(message, type, code)] to the names [error_type, error_message,
    error_code], so the record gets the classifier's type as
    [error_message] and the classifier's message as [error_type]; the
    exception is re-raised as it was.  On the same failure the CrewAI
    wrapper stores the three fields as the classifier gives them. *)
Theorem autogen_wrapper_swaps_error_fields :
  let exception :=
    {| exc_class := "RateLimitError";
       exc_message := "Rate limit reached, please retry. (429)";
       exc_status_code := None; exc_retry_count := None |} in
  let env :=
    {| env_comm_id := "comm_1";
       env_message_id := fun i => if decide (i = 0%nat) then "msg_1" else "msg_2";
       env_now := fun i => 1000 + Z.of_nat i;
       env_elapsed_ms := fun _ => 1200 |} in
  let autogen :=
    tracked_generate_reply (new_tracker None) env "a1" "Dr. X" "cardiology"
      "gpt-4" None (Some [ {| chat_role := "user"; chat_content := "hi" |} ])
      None (Raise exception) in
  let crewai :=
    tracked_call (new_tracker None) env "a1" "Dr. X" "cardiology" "gpt-4"
      "hi" (Raise exception) in
  parse_openai_error exception =
    ("Rate limit reached, please retry. (429)", "rate_limit", Some 429) /\
  (fun c => (error_message c, error_type c, error_code c))
    <$> get_communication (tracked_tracker autogen) "comm_1" =
    Some (Some "rate_limit", Some "Rate limit reached, please retry. (429)",
          Some 429) /\
  tracked_outcome autogen = Raise exception /\
  (fun c => (error_message c, error_type c, error_code c))
    <$> get_communication (tracked_tracker crewai) "comm_1" =
    Some (Some "Rate limit reached, please retry. (429)", Some "rate_limit",
          Some 429) /\
  tracked_outcome crewai = Raise exception.
Proof. vm_compute. repeat split; reflexivity. Qed.




(** ** Invariants of the store *)

Lemma Forall_pairs_set {V} (Q : string * V -> Prop) k v (d : odict string V) :
  Q (k, v) -> Forall Q d -> Forall Q (odict_set k v d).
Proof.
  intros Hv. induction d as [|[k' v'] d IH]; simpl; intros Hd.
  - by constructor.
  - inversion Hd; subst. destruct (decide (k = k')); constructor; auto.
Qed.

Lemma Forall_pairs_del {V} (Q : string * V -> Prop) k (d : odict string V) :
  Forall Q d -> Forall Q (odict_del k d).
Proof.
  unfold odict_del. induction d as [|[k' v'] d IH]; simpl; intros Hd; [done |].
  inversion Hd; subst.
  destruct (bool_decide (k = k')); simpl; [auto | constructor; auto].
Qed.

(** Induction over the life of the records: what holds of a new record
    and is kept by logging a message and by the assignments of a
    completion holds of every record of every reachable tracker. *)
Lemma reachable_records (P : string -> LLMCommunication.t -> Prop) :
  (forall comm_id now agent_id agent_name agent_specialty framework provider
          model patient_id patient_name scenario_type system_prompt,
     P comm_id
       (LLMCommunication.mk comm_id agent_id agent_name agent_specialty
          framework provider model now None patient_id patient_name
          scenario_type [] system_prompt 0 0 0 0%float 0 None None [] []
          None None None 0)) ->
  (forall k c message, P k c -> P k (record_message message c)) ->
  (forall k c now final_response response_time_ms confidence_score
          error_message error_type error_code retry_count,
     P k c -> messages c <> [] ->
     P k (set_outcome now final_response response_time_ms confidence_score
            error_message error_type error_code retry_count c) /\
     forall cost,
       P k (set_cost_estimate cost
              (set_outcome now final_response response_time_ms
                 confidence_score error_message error_type error_code
                 retry_count c))) ->
  forall self, reachable self ->
  forall k c, In (k, c) (communications self) -> P k c.
Proof.
  intros Hnew Hlog Hdone self (url & calls & ->).
  assert (Hall : forall calls self,
            Forall (fun kv => P kv.1 kv.2) (communications self) ->
            Forall (fun kv => P kv.1 kv.2) (communications (run self calls))).
  { clear calls. induction calls as [|cl calls IH]; intros self Hall; [done |].
    simpl. apply IH.
    destruct cl as [cid t aid ? ? ? ? ? ? ? ? ?|mid t cid ? ? ? ? ?
                    |t cid ? ? ? ? ? ? ?]; simpl.
    - apply Forall_pairs_set; [apply Hnew | done].
    - unfold add_message.
      destruct (odict_get cid (communications self)) as [c|] eqn:Hget;
        simpl; [| done].
      apply Forall_pairs_set; [| done]. simpl. apply Hlog.
      apply odict_get_In in Hget.
      rewrite List.Forall_forall in Hall. exact (Hall _ Hget).
    - unfold complete_communication.
      destruct (odict_get cid (communications self)) as [c|] eqn:Hget;
        simpl; [| done].
      apply odict_get_In in Hget.
      pose proof (proj1 (List.Forall_forall _ _) Hall _ Hget) as Hc.
      simpl in Hc.
      destruct (messages c) eqn:Hmsgs; simpl;
        [by apply Forall_pairs_del |].
      match goal with
      | |- context [set_outcome ?a ?b ?c0 ?d ?e ?f ?g ?h c] =>
          destruct (Hdone cid c a b c0 d e f g h Hc) as [Hout Hcost];
            [rewrite Hmsgs; discriminate |]
      end.
      destruct (_calculate_cost _); simpl;
        (apply Forall_pairs_set; [| done]); simpl; auto. }
  intros k c Hin.
  specialize (Hall calls (new_tracker url) (List.Forall_nil _)).
  rewrite List.Forall_forall in Hall. exact (Hall _ Hin).
Qed.

Lemma sum_int_snoc xs x : sum_int (xs ++ [x]) = sum_int xs + x.
Proof.
  induction xs as [|y xs IH]; simpl.
  - unfold sum_int. simpl. lia.
  - rewrite !sum_int_cons, IH. lia.
Qed.

Lemma log_tools_lists (tool_calls : list ToolCall) c :
  let c' :=
    fold_left
      (fun c tool_call => set_tools_used (tools_used c ++ [tool_name tool_call]) c)
      tool_calls c in
  tools_used c' = tools_used c ++ List.map tool_name tool_calls /\
  function_calls_made c' = function_calls_made c.
Proof.
  revert c. induction tool_calls as [|tc tcs IH]; intros c; simpl.
  - by rewrite app_nil_r.
  - destruct (IH (set_tools_used (tools_used c ++ [tool_name tc]) c))
      as [Htools Hcalls].
    simpl in Htools, Hcalls. rewrite Htools, Hcalls.
    by rewrite <- app_assoc.
Qed.

(** The two lists of a record after [add_message] stored [message]. *)
Lemma record_message_lists message c :
  function_calls_made (record_message message c) =
    function_calls_made c ++ message_function_names message /\
  tools_used (record_message message c) =
    tools_used c ++ message_tool_names message.
Proof.
  unfold record_message, message_function_names, message_tool_names.
  destruct (LLMMessage.tool_calls message) as [tcs|];
    [match goal with
     | |- context [fold_left ?f tcs ?c0] =>
         destruct (log_tools_lists tcs c0) as [-> ->]
     end |];
    (destruct (LLMMessage.function_call message) as [fc|];
       [destruct (decide (fc = ∅)) |]);
    (destruct (LLMMessage.tokens message) as [tokens|];
       [destruct (tokens =? 0);
          [| unfold update_token_counts;
             destruct (String.eqb (LLMMessage.role message) "user"
                       || String.eqb (LLMMessage.role message) "system")%bool;
             [| destruct (String.eqb (LLMMessage.role message) "assistant")]]
       |]);
    simpl; rewrite ?app_nil_r; done.
Qed.

Lemma record_message_derived message c :
  derived_from_messages c -> derived_from_messages (record_message message c).
Proof.
  intros (Hin & Hout & Hcalls & Htools).
  destruct (record_message_fields message c)
    as (Hmsgs & _ & _ & _ & Hin' & Hout' & _).
  destruct (record_message_lists message c) as [Hcalls' Htools'].
  unfold derived_from_messages.
  rewrite Hmsgs, Hin', Hout', Hcalls', Htools', !List.map_app. simpl.
  rewrite !sum_int_snoc, !concat_app. simpl. rewrite !app_nil_r.
  unfold message_input_tokens, message_output_tokens.
  rewrite Hin, Hout, Hcalls, Htools. done.
Qed.

(** X1: in every state the tracker reaches, the token totals and the two
    name lists of a stored record are those of its message log: the
    totals are the sums of the tokens of its user/system and of its
    assistant messages, [function_calls_made] and [tools_used] list the
    names of the calls of its messages, in order. *)
Theorem totals_follow_message_log self comm_id c :
  reachable self ->
  get_communication self comm_id = Some c ->
  total_input_tokens c = sum_int (List.map message_input_tokens (messages c)) /\
  total_output_tokens c =
    sum_int (List.map message_output_tokens (messages c)) /\
  function_calls_made c =
    concat (List.map message_function_names (messages c)) /\
  tools_used c = concat (List.map message_tool_names (messages c)).
Proof.
  intros Hreach Hget. apply odict_get_In in Hget.
  apply (reachable_records (fun _ c => derived_from_messages c))
    with (self := self) (k := comm_id); try done.
  - intros. by apply record_message_derived.
Qed.

Lemma totals_follow_message_log_witness :
  match get_communication (run (new_tracker None) session_errors) "comm_2" with
  | Some c =>
      total_input_tokens c = 20 /\
      function_calls_made c = ["lookup_drug"] /\
      tools_used c = ["fhir_search"; "unknown"]
  | None => False
  end.
Proof.
  assert (Hreach : reachable (run (new_tracker None) session_errors))
    by (exists None, session_errors; reflexivity).
  destruct (get_communication _ "comm_2") as [c|] eqn:Hget.
  - destruct (totals_follow_message_log _ _ _ Hreach Hget)
      as (Hin & _ & Hcalls & Htools).
    assert (Hmsgs : messages c =
                    [LLMMessage.mk "msg_2" 1003 "user" "check medication"
                       (Some 20) (Some {[ "name" := "lookup_drug" ]})
                       (Some [ {| tc_id := Some "t1";
                                  tc_type := Some "function";
                                  tc_function :=
                                    Some {[ "name" := "fhir_search" ]} |};
                               {| tc_id := Some "t2";
                                  tc_type := Some "function";
                                  tc_function := None |} ])]).
    { vm_compute in Hget. injection Hget as <-. reflexivity. }
    rewrite Hin, Hcalls, Htools, Hmsgs. vm_compute. repeat split.
  - vm_compute in Hget. discriminate Hget.
Defined.

Lemma log_tools_same_outcome (tool_calls : list ToolCall) c :
  same_outcome
    (fold_left
       (fun c tool_call => set_tools_used (tools_used c ++ [tool_name tool_call]) c)
       tool_calls c) c.
Proof.
  revert c. induction tool_calls as [|tc tcs IH]; intros c; simpl.
  - by repeat split.
  - exact (IH (set_tools_used (tools_used c ++ [tool_name tc]) c)).
Qed.

(** [add_message] leaves the identity and the outcome of the record. *)
Lemma record_message_same_outcome message c :
  same_outcome (record_message message c) c.
Proof.
  unfold record_message.
  destruct (LLMMessage.tool_calls message) as [tcs|];
    [match goal with
     | |- context [fold_left ?f tcs ?c0] =>
         destruct (log_tools_same_outcome tcs c0)
           as (Hid & Hn & Hf & Hr & Hs & Hm & Ht & Hc & Hy);
         unfold same_outcome; rewrite Hid, Hn, Hf, Hr, Hs, Hm, Ht, Hc, Hy;
         clear Hid Hn Hf Hr Hs Hm Ht Hc Hy
     end |];
    (destruct (LLMMessage.function_call message) as [fc|];
       [destruct (decide (fc = ∅)) |]);
    (destruct (LLMMessage.tokens message) as [tokens|];
       [destruct (tokens =? 0);
          [| unfold update_token_counts;
             destruct (String.eqb (LLMMessage.role message) "user"
                       || String.eqb (LLMMessage.role message) "system")%bool;
             [| destruct (String.eqb (LLMMessage.role message) "assistant")]]
       |]);
    by repeat split.
Qed.

Lemma reachable_well_kept self k c :
  reachable self -> In (k, c) (communications self) -> well_kept k c.
Proof.
  intros Hreach Hin.
  apply (reachable_records well_kept) with (self := self); try done.
  - intros k0 c0 message (Hid & Hend & Hopen).
    destruct (record_message_fields message c0)
      as (Hmsgs & Hend' & Hcost & _).
    destruct (record_message_same_outcome message c0)
      as (Hid' & _ & Hf & Hr & Hs & Hm & Ht & Hc & Hy).
    unfold well_kept, outcome_unset.
    rewrite Hmsgs, Hend', Hcost, Hid', Hf, Hr, Hs, Hm, Ht, Hc, Hy.
    split; [exact Hid |]. split; [| exact Hopen].
    intros _. by destruct (messages c0).
  - intros k0 c0 now fr rt cs em et ec rc (Hid & Hend & Hopen) Hmsgs.
    split; [| intros cost]; (split; [exact Hid |]); split; simpl; done.
Qed.

(** X2: in every state the tracker reaches, a record is stored under its
    own id, a record with [session_end] set has at least one message, and
    a record with [session_end] unset has its outcome fields as
    [start_communication] left them. *)
Theorem stored_records_well_kept self comm_id c :
  reachable self ->
  get_communication self comm_id = Some c ->
  id c = comm_id /\
  (session_end c <> None -> messages c <> []) /\
  (session_end c = None ->
   final_response c = None /\ response_time_ms c = 0 /\
   confidence_score c = None /\ error_message c = None /\
   error_type c = None /\ error_code c = None /\ retry_count c = 0 /\
   cost_estimate c = 0%float).
Proof.
  intros Hreach Hget. apply odict_get_In in Hget.
  exact (reachable_well_kept self comm_id c Hreach Hget).
Qed.

Lemma stored_records_well_kept_witness :
  match get_communication (run (new_tracker None) phantom_session) "comm_2" with
  | Some c => id c = "comm_2" /\ error_type c = None /\ response_time_ms c = 0
  | None => False
  end.
Proof.
  assert (Hreach : reachable (run (new_tracker None) phantom_session))
    by (exists None, phantom_session; reflexivity).
  destruct (get_communication _ "comm_2") as [c|] eqn:Hget.
  - destruct (stored_records_well_kept _ _ _ Hreach Hget)
      as (Hid & _ & Hopen).
    assert (Hend : session_end c = None)
      by (vm_compute in Hget; injection Hget as <-; reflexivity).
    destruct (Hopen Hend) as (_ & Hrt & _ & _ & Het & _).
    repeat split; assumption.
  - vm_compute in Hget. discriminate Hget.
Defined.

(** ** Starting, logging, completing *)

Lemma odict_get_None_keys {V} k (d : odict string V) :
  odict_get k d = None <-> ~ In k (odict_keys d).
Proof.
  unfold odict_keys. induction d as [|[k' v'] d IH]; simpl; [tauto |].
  destruct (decide (k = k')) as [->|Hne].
  - split; [done | tauto].
  - rewrite IH. split; [intros Hno [Heq|Hin]; [congruence | tauto] | tauto].
Qed.

Lemma odict_set_fresh {V} k (v : V) (d : odict string V) :
  odict_get k d = None -> odict_set k v d = d ++ [(k, v)].
Proof.
  induction d as [|[k' v'] d IH]; simpl; [done |].
  destruct (decide (k = k')); [done |]. intros Hget. by rewrite IH.
Qed.

Lemma odict_set_keys {V} k (v v' : V) (d : odict string V) :
  odict_get k d = Some v' -> odict_keys (odict_set k v d) = odict_keys d.
Proof.
  unfold odict_keys. induction d as [|[k0 v0] d IH]; simpl; [done |].
  destruct (decide (k = k0)) as [->|Hne]; simpl; [done |].
  intros Hget. by rewrite IH.
Qed.

(** X3: [start_communication] returns the generated id, stores under it
    a record with the arguments, no message, zero totals and no outcome,
    and points the agent's index entry at it; the records under other
    ids and the entries of other agents are as before, and when the id is
    new the record comes last in the store. *)
Theorem start_communication_registers self comm_id now agent_id agent_name
    agent_specialty framework provider model patient_id patient_name
    scenario_type system_prompt :
  let started :=
    start_communication self comm_id now agent_id agent_name agent_specialty
      framework provider model patient_id patient_name scenario_type
      system_prompt in
  let communication :=
    LLMCommunication.mk comm_id agent_id agent_name agent_specialty
      framework provider model now None patient_id patient_name
      scenario_type [] system_prompt 0 0 0 0%float 0 None None [] []
      None None None 0 in
  started.2 = comm_id /\
  get_communication started.1 comm_id = Some communication /\
  active_sessions started.1 !! agent_id = Some comm_id /\
  (forall k, k <> comm_id ->
             get_communication started.1 k = get_communication self k) /\
  (forall a, a <> agent_id ->
             active_sessions started.1 !! a = active_sessions self !! a) /\
  (get_communication self comm_id = None ->
   odict_values (communications started.1) =
     odict_values (communications self) ++ [communication]).
Proof.
  unfold get_communication. simpl.
  split; [done |]. split; [apply odict_get_set_eq |].
  split; [apply lookup_insert_eq |].
  split; [intros k Hk; apply odict_get_set_ne; congruence |].
  split; [intros a Ha; apply lookup_insert_ne; congruence |].
  intros Hnew. rewrite odict_set_fresh by done.
  unfold odict_values. by rewrite List.map_app.
Qed.

(** X4: [add_message] and [complete_communication] on an id that is not
    in the store change nothing: [add_message] still returns the
    generated message id, [complete_communication] submits no webhook
    and raises nothing. *)
Theorem unknown_id_is_ignored self comm_id :
  get_communication self comm_id = None ->
  (forall message_id now role content tokens function_call tool_calls,
     add_message self message_id now comm_id role content tokens
       function_call tool_calls = (self, message_id)) /\
  (forall now final_response response_time_ms confidence_score error_message
          error_type error_code retry_count,
     complete_communication self now comm_id final_response response_time_ms
       confidence_score error_message error_type error_code retry_count =
     {| completed_tracker := self; webhooks_submitted := [];
        raised := None |}).
Proof.
  unfold get_communication, add_message, complete_communication.
  intros ->. done.
Qed.

Lemma unknown_id_is_ignored_witness :
  let self := run (new_tracker (Some "http://hook")) phantom_session in
  let discarded :=
    completed_tracker
      (complete_communication self 1005 "comm_2" "" 0 None None None None 0) in
  complete_communication discarded 1006 "comm_2" "again" 5 None None None
    None 0 =
  {| completed_tracker := discarded; webhooks_submitted := [];
     raised := None |}.
Proof.
  intros self discarded.
  apply (unknown_id_is_ignored discarded "comm_2").
  vm_compute. reflexivity.
Defined.

Lemma add_message_frame self message_id now comm_id role content tokens
    function_call tool_calls c :
  get_communication self comm_id = Some c ->
  let self' :=
    (add_message self message_id now comm_id role content tokens
       function_call tool_calls).1 in
  (forall k, k <> comm_id ->
             get_communication self' k = get_communication self k) /\
  active_sessions self' = active_sessions self /\
  webhook_url self' = webhook_url self /\
  odict_keys (communications self') = odict_keys (communications self).
Proof.
  unfold get_communication, add_message. intros Hget. rewrite Hget. simpl.
  split; [intros k Hk; apply odict_get_set_ne; congruence |].
  split; [done |]. split; [done |]. by eapply odict_set_keys.
Qed.

(** X5: a sequence of [add_message] calls on a stored Communication
    appends their messages to its log in call order and changes nothing
    else of the tracker: [session_end], [cost_estimate], the identity and
    the outcome fields of the record, the other records, the index and
    the order of the store are as before. *)
Theorem add_message_appends_in_order calls : forall self comm_id c,
  get_communication self comm_id = Some c ->
  Forall (adds_message_to comm_id) calls ->
  exists c',
    get_communication (run self calls) comm_id = Some c' /\
    messages c' = messages c ++ omap message_of calls /\
    session_end c' = session_end c /\
    cost_estimate c' = cost_estimate c /\
    same_outcome c' c /\
    (forall k, k <> comm_id ->
               get_communication (run self calls) k = get_communication self k) /\
    active_sessions (run self calls) = active_sessions self /\
    odict_keys (communications (run self calls)) =
      odict_keys (communications self).
Proof.
  induction calls as [|cl calls IH]; intros self comm_id c Hget Hcalls.
  - exists c. simpl. rewrite app_nil_r. by repeat split.
  - inversion Hcalls as [|? ? Hcl Hrest]; subst.
    destruct cl as [|mid t cid role content tokens fc tcs|];
      simpl in Hcl; try done. subst cid.
    pose proof (add_message_lookup self mid t comm_id role content tokens fc
                  tcs c Hget) as Hstep.
    destruct (add_message_frame self mid t comm_id role content tokens fc tcs
                c Hget) as (Hothers & Hidx & _ & Hkeys).
    destruct (record_message_fields
                (LLMMessage.mk mid t role content tokens fc tcs) c)
      as (Hmsgs & Hend & Hcost & _).
    pose proof (record_message_same_outcome
                  (LLMMessage.mk mid t role content tokens fc tcs) c) as Hsame.
    destruct (IH _ _ _ Hstep Hrest)
      as (c' & Hget' & Hmsgs' & Hend' & Hcost' & Hsame' & Hothers' & Hidx'
          & Hkeys').
    exists c'. simpl run. split; [exact Hget' |].
    split; [rewrite Hmsgs', Hmsgs; simpl; by rewrite <- app_assoc |].
    split; [congruence |]. split; [congruence |].
    split.
    { unfold same_outcome in *.
      destruct Hsame as (? & ? & ? & ? & ? & ? & ? & ? & ?).
      destruct Hsame' as (? & ? & ? & ? & ? & ? & ? & ? & ?).
      repeat split; congruence. }
    split; [intros k Hk; rewrite Hothers' by done; by apply Hothers |].
    split; congruence.
Qed.

Lemma add_message_appends_in_order_witness :
  (fun c => List.map LLMMessage.id (messages c))
    <$> get_communication (run (new_tracker None) session_open) "comm_1" =
  Some ["msg_1"; "msg_2"].
Proof.
  pose (started := run (new_tracker None) (take 1 session_open)).
  assert (Hget : exists c, get_communication started "comm_1" = Some c /\
                           messages c = [])
    by (eexists; split; [vm_compute; reflexivity | reflexivity]).
  destruct Hget as (c & Hget & Hempty).
  assert (Hcalls : Forall (adds_message_to "comm_1") (drop 1 session_open))
    by (repeat constructor).
  destruct (add_message_appends_in_order (drop 1 session_open) started
              "comm_1" c Hget Hcalls) as (c' & Hget' & Hmsgs & _).
  change (run started (drop 1 session_open))
    with (run (new_tracker None) session_open) in Hget'.
  rewrite Hget'. simpl. rewrite Hmsgs, Hempty. reflexivity.
Defined.

(** X6: a completion of a Communication that has messages submits one
    webhook, for that record, when a non-empty webhook URL is configured
    and the cost computation does not raise, and none otherwise; whether
    the record was completed before plays no role. *)
Theorem webhook_submitted_once_per_completion self now comm_id
    final_response response_time_ms confidence_score error_message
    error_type error_code retry_count c :
  get_communication self comm_id = Some c ->
  messages c <> [] ->
  let done :=
    complete_communication self now comm_id final_response response_time_ms
      confidence_score error_message error_type error_code retry_count in
  webhooks_submitted done =
    match raised done, webhook_url self with
    | None, Some url => if String.eqb url "" then [] else [id c]
    | _, _ => []
    end.
Proof.
  unfold get_communication, complete_communication. intros -> Hmsgs.
  destruct (messages c) eqn:Hm; [done |]. simpl.
  destruct (_calculate_cost _); simpl; done.
Qed.

Lemma webhook_submitted_once_per_completion_witness :
  let self := run (new_tracker (Some "http://hook")) session_done in
  webhooks_submitted
    (complete_communication self 1010 "comm_1" "again" 1 None None None None
       0) = ["comm_1"].
Proof.
  intros self.
  assert (Hget : exists c, get_communication self "comm_1" = Some c /\
                           messages c <> [] /\ id c = "comm_1")
    by (eexists; split; [vm_compute; reflexivity |];
        split; [discriminate | reflexivity]).
  destruct Hget as (c & Hget & Hmsgs & Hid).
  pose proof (webhook_submitted_once_per_completion self 1010 "comm_1"
                "again" 1 None None None None 0 c Hget Hmsgs) as Hhook.
  cbv zeta in Hhook. rewrite Hhook, Hid.
  assert (Hraised : raised (complete_communication self 1010 "comm_1" "again"
                              1 None None None None 0) = None)
    by (vm_compute; reflexivity).
  rewrite Hraised. reflexivity.
Defined.

Lemma calculate_cost_raises c e :
  _calculate_cost c = Raise e ->
  e = OverflowError /\ priced (provider c) (model c) <> None.
Proof.
  unfold _calculate_cost, priced.
  destruct (odict_get (provider c) pricing) as [models|]; simpl; [| done].
  destruct (odict_get (model c) models) as [p|]; simpl; [| done].
  destruct (py_truediv (total_input_tokens c) 1000) as [q_in|e1] eqn:Hin;
    simpl.
  - destruct (py_truediv (total_output_tokens c) 1000) as [q_out|e2] eqn:Hout;
      simpl; [done |].
    intros [= <-]. split; [| done].
    by apply py_truediv_raises in Hout as [[? _]| ->].
  - intros [= <-]. split; [| done].
    by apply py_truediv_raises in Hin as [[? _]| ->].
Qed.

(** X7: [complete_communication] raises only when the cost computation
    overflows the float range; the exception is an [OverflowError], and
    it leaves the record with its messages, with the outcome fields
    assigned and [cost_estimate] as it was, the index as it was, and no
    webhook submitted. *)
Theorem complete_raises_only_on_cost_overflow self now comm_id
    final_response response_time_ms confidence_score error_message
    error_type error_code retry_count e :
  let done :=
    complete_communication self now comm_id final_response response_time_ms
      confidence_score error_message error_type error_code retry_count in
  raised done = Some e ->
  e = OverflowError /\
  webhooks_submitted done = [] /\
  active_sessions (completed_tracker done) = active_sessions self /\
  exists c,
    get_communication self comm_id = Some c /\
    messages c <> [] /\
    priced (provider c) (model c) <> None /\
    get_communication (completed_tracker done) comm_id =
      Some (set_outcome now final_response response_time_ms confidence_score
              error_message error_type error_code retry_count c).
Proof.
  unfold get_communication, complete_communication.
  destruct (odict_get comm_id (communications self)) as [c|] eqn:Hget;
    simpl; [| done].
  destruct (messages c) eqn:Hm; simpl; [done |].
  destruct (_calculate_cost _) as [cost|e'] eqn:Hcost; simpl; [done |].
  intros [= <-]. apply calculate_cost_raises in Hcost as [-> Hpriced].
  split; [done |]. split; [done |]. split; [done |].
  exists c. split; [done |]. split; [by rewrite Hm |].
  split; [exact Hpriced |]. apply odict_get_set_eq.
Qed.

Lemma complete_raises_only_on_cost_overflow_witness :
  let self := run (new_tracker (Some "http://hook")) session_overflow in
  let done :=
    complete_communication self 1002 "comm_1" "done" 10 None None None None
      0 in
  raised done = Some OverflowError /\
  webhooks_submitted done = [] /\
  active_sessions (completed_tracker done) !! "a1" = Some "comm_1".
Proof.
  intros self done.
  assert (Hraised : raised done = Some OverflowError)
    by (vm_compute; reflexivity).
  destruct (complete_raises_only_on_cost_overflow self 1002 "comm_1" "done"
              10 None None None None 0 OverflowError Hraised)
    as (_ & Hhooks & Hidx & _).
  split; [exact Hraised |]. split; [exact Hhooks |].
  fold done in Hidx. rewrite Hidx. vm_compute. reflexivity.
Defined.

(** ** Export and lookup *)

Lemma odict_keys_set {V} k (v : V) (d : odict string V) :
  odict_keys (odict_set k v d) =
    match odict_get k d with
    | Some _ => odict_keys d
    | None => odict_keys d ++ [k]
    end.
Proof.
  unfold odict_keys. induction d as [|[k' v'] d IH]; simpl; [done |].
  destruct (decide (k = k')) as [->|Hne]; simpl; [done |].
  rewrite IH. by destruct (odict_get k d).
Qed.

Lemma odict_keys_del {V} k (d : odict string V) :
  odict_keys (odict_del k d) =
    List.filter (fun k' => negb (bool_decide (k = k'))) (odict_keys d).
Proof.
  unfold odict_keys, odict_del.
  induction d as [|[k' v'] d IH]; simpl; [done |].
  destruct (bool_decide (k = k')); simpl; by rewrite IH.
Qed.

Lemma call_keys_NoDup self cl :
  NoDup (odict_keys (communications self)) ->
  NoDup (odict_keys (communications (call self cl))).
Proof.
  intros Hnodup.
  assert (Hset : forall k v,
            NoDup (odict_keys (odict_set k v (communications self)))).
  { intros k v. rewrite odict_keys_set.
    destruct (odict_get k (communications self)) eqn:Hget; [done |].
    apply NoDup_app. split; [done |]. split; [| apply NoDup_singleton].
    intros k' Hin ->%list_elem_of_singleton.
    apply odict_get_None_keys in Hget. apply Hget.
    by apply list_elem_of_In. }
  destruct cl as [cid t aid ? ? ? ? ? ? ? ? ?|mid t cid ? ? ? ? ?
                  |t cid ? ? ? ? ? ? ?]; simpl.
  - apply Hset.
  - unfold add_message.
    destruct (odict_get cid (communications self)); simpl; [apply Hset | done].
  - unfold complete_communication.
    destruct (odict_get cid (communications self)) as [c|]; simpl; [| done].
    destruct (messages c); simpl.
    + rewrite odict_keys_del. apply NoDup_ListNoDup, List.NoDup_filter.
      by apply NoDup_ListNoDup.
    + destruct (_calculate_cost _); simpl; apply Hset.
Qed.

Lemma reachable_keys_NoDup self :
  reachable self -> NoDup (odict_keys (communications self)).
Proof.
  intros (url & calls & ->).
  assert (Hall : forall calls self,
            NoDup (odict_keys (communications self)) ->
            NoDup (odict_keys (communications (run self calls)))).
  { clear calls. induction calls as [|cl calls IH]; intros self Hself;
      [done |].
    simpl. apply IH. by apply call_keys_NoDup. }
  apply Hall. constructor.
Qed.

Lemma odict_In_get {V} k (v : V) (d : odict string V) :
  NoDup (odict_keys d) -> In (k, v) d -> odict_get k d = Some v.
Proof.
  unfold odict_keys. induction d as [|[k' v'] d IH]; simpl; [done |].
  intros Hnodup [Heq|Hin].
  - injection Heq as -> ->. by rewrite decide_True.
  - apply NoDup_cons in Hnodup as [Hfirst Hrest].
    destruct (decide (k = k')) as [->|Hne]; [| by apply IH].
    exfalso. apply Hfirst. apply list_elem_of_In.
    change k' with (fst (k', v)). by apply in_map.
Qed.

(** X8: in every state the tracker reaches, the list that
    [export_communications] builds for [json.dumps] has one entry per
    stored id, in store order and without a repeated id, and it agrees
    with the lookup.  The call itself returns text, the empty list, only
    while nothing is stored: with any record in the store it raises
    [TypeError], and with a format other than ["json"] it raises
    [ValueError] with the format in the message. *)
Theorem export_of_reachable_store self :
  reachable self ->
  List.map id (export_data self) = odict_keys (communications self) /\
  NoDup (List.map id (export_data self)) /\
  (forall c, In c (export_data self) <->
             get_communication self (id c) = Some c) /\
  (export_communications self "json" = Ok "[]" <->
   forall k, get_communication self k = None) /\
  (forall k c,
     get_communication self k = Some c ->
     export_communications self "json" =
       Raise (TypeError
                "Object of type AgentFramework is not JSON serializable")) /\
  (forall format,
     format <> "json" ->
     export_communications self format =
       Raise (ValueError
                (String.append "Unsupported export format: " format))).
Proof.
  intros Hreach.
  pose proof (reachable_keys_NoDup self Hreach) as Hnodup.
  assert (Hids : forall k c, In (k, c) (communications self) -> id c = k).
  { intros k c Hin. exact (proj1 (reachable_well_kept self k c Hreach Hin)). }
  assert (Hmap : List.map id (export_data self) =
                 odict_keys (communications self)).
  { unfold export_data, odict_values, odict_keys. rewrite List.map_map.
    apply List.map_ext_in. intros [k c] Hin. simpl. by apply Hids. }
  split; [exact Hmap |]. split; [by rewrite Hmap |].
  split; [| split; [| split]].
  - intros c. unfold get_communication, export_data, odict_values. split.
    + intros ([k c'] & Heq & Hin)%in_map_iff. simpl in Heq. subst c'.
      rewrite (Hids _ _ Hin). by apply odict_In_get.
    + intros Hget%odict_get_In. apply in_map_iff. by exists (id c, c).
  - unfold export_communications, export_data, get_communication.
    destruct (communications self) as [|[k c] d]; simpl.
    + done.
    + split; [done |]. intros Hnone. specialize (Hnone k).
      by rewrite decide_True in Hnone.
  - intros k c.
    unfold export_communications, export_data, get_communication.
    by destruct (communications self) as [|[k' c'] d].
  - intros format Hne. unfold export_communications.
    by rewrite (proj2 (String.eqb_neq format "json") Hne).
Qed.

Lemma export_of_reachable_store_witness :
  List.map id (export_data (run (new_tracker None) session_errors)) =
    ["comm_1"; "comm_2"; "comm_3"] /\
  export_communications (run (new_tracker None) session_errors) "json" =
    Raise (TypeError "Object of type AgentFramework is not JSON serializable") /\
  export_communications (run (new_tracker None) session_errors) "csv" =
    Raise (ValueError "Unsupported export format: csv") /\
  export_communications (new_tracker None) "json" = Ok "[]".
Proof.
  assert (Hreach : reachable (run (new_tracker None) session_errors))
    by (exists None, session_errors; reflexivity).
  assert (Hnew : reachable (new_tracker None))
    by (exists None, []; reflexivity).
  destruct (export_of_reachable_store _ Hreach)
    as (Hids & _ & _ & _ & Hraise & Hformat).
  destruct (export_of_reachable_store _ Hnew) as (_ & _ & _ & Hempty & _).
  split; [rewrite Hids; vm_compute; reflexivity |].
  split.
  - destruct (get_communication (run (new_tracker None) session_errors)
                "comm_1") as [c|] eqn:Hget.
    + exact (Hraise "comm_1" c Hget).
    + vm_compute in Hget. discriminate Hget.
  - split; [apply Hformat; discriminate |].
    apply Hempty. intros k. reflexivity.
Defined.

(** ** Discarding an empty Communication *)







(** ** The breakdowns of the statistics *)

Lemma filter_len_le {A} (f : A -> bool) (l : list A) :
  0 <= len (List.filter f l) <= len l.
Proof.
  unfold len. induction l as [|x l IH]; simpl; [lia |].
  destruct (f x); simpl; lia.
Qed.

Lemma framework_partition (l : list LLMCommunication.t) :
  let part fw := List.filter (fun c => bool_decide (framework c = fw)) l in
  len (part AUTOGEN) + len (part CREWAI) + len (part CUSTOM) = len l /\
  sum_int (List.map total_tokens (part AUTOGEN)) +
  sum_int (List.map total_tokens (part CREWAI)) +
  sum_int (List.map total_tokens (part CUSTOM)) =
    sum_int (List.map total_tokens l).
Proof.
  unfold len. induction l as [|c l [IHn IHt]]; simpl; [done |].
  destruct (framework c); simpl; rewrite ?sum_int_cons; simpl length; lia.
Qed.

(** X9: in the full statistics the per-framework breakdown has exactly
    the entries "autogen", "crewai" and "custom", in this order; their
    counts add up to [completed] and their tokens to [total_tokens]; and
    [0 <= errors <= completed <= total] with [completed >= 1]. *)
Theorem stats_by_framework_adds_up self s :
  get_communication_stats self = Ok (StatsFull s) ->
  List.map fst (by_framework s) = ["autogen"; "crewai"; "custom"] /\
  sum_int (List.map (fun entry => fs_count entry.2) (by_framework s)) =
    completed s /\
  sum_int (List.map (fun entry => fs_tokens entry.2) (by_framework s)) =
    stats_total_tokens s /\
  0 <= errors s <= completed s /\
  1 <= completed s <= total s.
Proof.
  unfold get_communication_stats.
  pose proof (filter_len_le is_completed (odict_values (communications self)))
    as Hle.
  destruct (List.filter is_completed (odict_values (communications self)))
    as [|c0 completed_comms]; [done |].
  set (comps := c0 :: completed_comms) in *.
  assert (Hone : 1 <= len comps) by (unfold len; simpl length; lia).
  destruct (framework_partition comps) as [Hn Ht].
  cbv beta zeta in Hn, Ht. clearbody comps.
  destruct (py_truediv _ _) as [avg|]; cbn [mbind result_bind]; [| done].
  destruct (py_int avg); cbn [mbind result_bind]; [| done].
  intros [= <-].
  cbn [by_framework completed stats_total_tokens errors total].
  unfold all_frameworks, framework_stats_of.
  cbn [List.map fst snd fs_count fs_tokens framework_value].
  rewrite !sum_int_cons. change (sum_int []) with 0.
  assert (Hsum : forall a b c d : Z, a + b + c = d -> a + (b + (c + 0)) = d)
    by lia.
  split; [done |]. split; [apply Hsum; exact Hn |].
  split; [apply Hsum; exact Ht |].
  split; [apply filter_len_le |]. unfold len in *. lia.
Qed.

Lemma stats_by_framework_adds_up_witness :
  match get_communication_stats (run (new_tracker None) session_errors) with
  | Ok (StatsFull s) =>
      List.map fst (by_framework s) = ["autogen"; "crewai"; "custom"] /\
      sum_int (List.map (fun entry => fs_count entry.2) (by_framework s)) = 3 /\
      errors s <= 3
  | _ => False
  end.
Proof.
  destruct (get_communication_stats (run (new_tracker None) session_errors))
    as [[|s]|e] eqn:Hstats.
  - vm_compute in Hstats. discriminate Hstats.
  - destruct (stats_by_framework_adds_up _ s Hstats)
      as (Hkeys & Hcount & _ & Herrors & _).
    assert (Hcompleted : completed s = 3)
      by (vm_compute in Hstats; injection Hstats as <-; reflexivity).
    rewrite Hcompleted in *. split; [exact Hkeys |].
    split; [exact Hcount | apply Herrors].
  - vm_compute in Hstats. discriminate Hstats.
Defined.

Lemma record_error_get et error_stats c :
  odict_get et (record_error error_stats c) =
    if decide (et = error_bucket c)
    then Some {| es_count :=
                   es_count (default {| es_count := 0; es_latest_error := None |}
                               (odict_get et error_stats)) + 1;
                 es_latest_error := Some (error_snapshot c) |}
    else odict_get et error_stats.
Proof.
  unfold record_error. fold (error_bucket c). fold (error_snapshot c).
  destruct (decide (et = error_bucket c)) as [->|Hne].
  - apply odict_get_set_eq.
  - apply odict_get_set_ne. congruence.
Qed.

Lemma error_breakdown_get et (l : list LLMCommunication.t) :
  odict_get et (fold_left record_error l []) =
    match last (List.filter (fun c => bool_decide (error_bucket c = et)) l) with
    | Some c =>
        Some {| es_count :=
                  len (List.filter (fun c => bool_decide (error_bucket c = et)) l);
                es_latest_error := Some (error_snapshot c) |}
    | None => None
    end.
Proof.
  induction l as [|c l IH] using rev_ind; [done |].
  rewrite fold_left_app. simpl. rewrite record_error_get, List.filter_app.
  simpl. destruct (decide (et = error_bucket c)) as [->|Hne].
  - rewrite bool_decide_eq_true_2 by done. rewrite last_snoc.
    unfold len. rewrite length_app. simpl. rewrite IH.
    destruct (last _) as [c'|] eqn:Hlast; simpl.
    + do 2 f_equal. unfold len. lia.
    + apply last_None in Hlast. rewrite Hlast. done.
  - rewrite bool_decide_eq_false_2 by congruence. by rewrite app_nil_r.
Qed.

(** X10: in the full statistics, [errors] counts the completed records
    with an error message, and the error breakdown has, under each error
    type ("unknown" for a record without one), the number of those
    records of the type and the message, code, start time and agent of
    the last of them in store order; a type without such a record has no
    entry. *)
Theorem stats_error_breakdown self s :
  get_communication_stats self = Ok (StatsFull s) ->
  errors s = len (error_comms_of self) /\
  forall et,
    odict_get et (error_breakdown s) =
      match last (List.filter (fun c => bool_decide (error_bucket c = et))
                    (error_comms_of self)) with
      | Some c =>
          Some {| es_count :=
                    len (List.filter
                           (fun c => bool_decide (error_bucket c = et))
                           (error_comms_of self));
                  es_latest_error := Some (error_snapshot c) |}
      | None => None
      end.
Proof.
  unfold get_communication_stats, error_comms_of.
  destruct (List.filter is_completed (odict_values (communications self)))
    as [|c0 completed_comms] eqn:Hcompleted; [done |].
  destruct (py_truediv _ _) as [avg|]; simpl; [| done].
  destruct (py_int avg); simpl; [| done].
  intros [= <-]. simpl. split; [done |].
  intros et. apply (error_breakdown_get et).
Qed.

Lemma stats_error_breakdown_witness :
  match get_communication_stats (run (new_tracker None) session_errors) with
  | Ok (StatsFull s) =>
      odict_get "quota_exceeded" (error_breakdown s) =
        Some {| es_count := 1;
                es_latest_error :=
                  Some {| snap_message := Some "You exceeded your current quota";
                          snap_code := Some 429;
                          snap_timestamp := 1000;
                          snap_agent := "Dr. X" |} |} /\
      odict_get "rate_limit" (error_breakdown s) = None
  | _ => False
  end.
Proof.
  destruct (get_communication_stats (run (new_tracker None) session_errors))
    as [[|s]|e] eqn:Hstats.
  - vm_compute in Hstats. discriminate Hstats.
  - destruct (stats_error_breakdown _ s Hstats) as [_ Hget].
    rewrite !Hget. vm_compute. split; reflexivity.
  - vm_compute in Hstats. discriminate Hstats.
Defined.

(** ** The most recent communications *)

Lemma insert_by_start_perm x l : insert_by_start x l ≡ₚ x :: l.
Proof.
  induction l as [|y l IH]; simpl; [done |].
  destruct (session_start y <=? session_start x); [done |].
  rewrite IH. apply perm_swap.
Qed.

Lemma sorted_by_start_perm xs : sorted_by_start xs ≡ₚ xs.
Proof.
  induction xs as [|x xs IH]; simpl; [done |].
  by rewrite insert_by_start_perm, IH.
Qed.

Lemma insert_by_start_sorted x l :
  StronglySorted started_no_earlier l ->
  StronglySorted started_no_earlier (insert_by_start x l).
Proof.
  induction l as [|y l IH]; simpl; intros Hsorted.
  - repeat constructor.
  - apply StronglySorted_inv in Hsorted as [Hl Hy].
    destruct (Z.leb_spec (session_start y) (session_start x)) as [Hle|Hlt].
    + constructor; [by constructor |].
      constructor; [exact Hle |].
      eapply Forall_impl; [exact Hy |].
      unfold started_no_earlier. intros b Hb. simpl in Hb. lia.
    + constructor; [by apply IH |].
      rewrite insert_by_start_perm. constructor; [| exact Hy].
      unfold started_no_earlier. lia.
Qed.

Lemma sorted_by_start_sorted xs :
  StronglySorted started_no_earlier (sorted_by_start xs).
Proof.
  induction xs as [|x xs IH]; simpl; [constructor |].
  by apply insert_by_start_sorted.
Qed.

Lemma insert_by_start_stable t x l :
  started_at t (insert_by_start x l) = started_at t (x :: l).
Proof.
  unfold started_at. induction l as [|y l IH]; simpl; [done |].
  destruct (Z.leb_spec (session_start y) (session_start x)) as [Hle|Hlt];
    [done |].
  simpl. rewrite IH. simpl.
  destruct (Z.eqb_spec (session_start y) t) as [Hy|Hy];
    destruct (Z.eqb_spec (session_start x) t) as [Hx|Hx]; try done.
  lia.
Qed.

Lemma sorted_by_start_stable t xs :
  started_at t (sorted_by_start xs) = started_at t xs.
Proof.
  induction xs as [|x xs IH]; simpl; [done |].
  rewrite insert_by_start_stable. unfold started_at in *. simpl.
  by rewrite IH.
Qed.

(** X11: [get_recent_communications(limit)] returns records in order of
    start, latest first; they are the first [limit] of the stored records
    in that order (all but the last [-limit] for a negative [limit]), so
    no record that is left out started later than a returned one; and
    records that started at the same time come in store order. *)
Theorem recent_communications_are_latest self limit :
  let stored := odict_values (communications self) in
  let recent := get_recent_communications self limit in
  StronglySorted started_no_earlier recent /\
  len recent =
    (if 0 <=? limit then Z.min limit (len stored)
     else Z.max 0 (len stored + limit)) /\
  (exists rest,
     recent ++ rest ≡ₚ stored /\
     forall c c', c ∈ recent -> c' ∈ rest ->
                  session_start c' <= session_start c) /\
  (forall t, started_at t recent `prefix_of` started_at t stored).
Proof.
  intros stored recent. subst recent.
  unfold get_recent_communications, py_slice_to. fold stored.
  pose proof (sorted_by_start_sorted stored) as Hsorted.
  pose proof (sorted_by_start_perm stored) as Hperm.
  pose proof (Permutation_length Hperm) as Hlen.
  assert (Htake : forall n,
            StronglySorted started_no_earlier (take n (sorted_by_start stored)) /\
            (exists rest,
               take n (sorted_by_start stored) ++ rest ≡ₚ stored /\
               forall c c', c ∈ take n (sorted_by_start stored) -> c' ∈ rest ->
                            session_start c' <= session_start c) /\
            (forall t, started_at t (take n (sorted_by_start stored))
                       `prefix_of` started_at t stored)).
  { intros n.
    rewrite <- (take_drop n (sorted_by_start stored)) in Hsorted.
    split; [by eapply StronglySorted_app_1_l |]. split.
    - exists (drop n (sorted_by_start stored)).
      split; [by rewrite take_drop |].
      intros c c' Hc Hc'.
      exact (StronglySorted_app_1_elem_of _ _ _ _ _ Hsorted Hc Hc').
    - intros t. exists (started_at t (drop n (sorted_by_start stored))).
      rewrite <- (sorted_by_start_stable t stored).
      rewrite <- (take_drop n (sorted_by_start stored)) at 1.
      unfold started_at. apply List.filter_app. }
  destruct (Z.leb_spec 0 limit) as [Hpos|Hneg].
  - destruct (Htake (Z.to_nat limit)) as (H1 & H2 & H3).
    split; [exact H1 |]. split; [| split; [exact H2 | exact H3]].
    unfold len. rewrite length_take, Hlen. lia.
  - destruct (Htake (length (sorted_by_start stored) - Z.to_nat (- limit))%nat)
      as (H1 & H2 & H3).
    split; [exact H1 |]. split; [| split; [exact H2 | exact H3]].
    unfold len. rewrite length_take, Hlen. lia.
Qed.

(** ** Quota errors *)

Lemma max_by_start_spec rest : forall best,
  max_by_start best rest ∈ best :: rest /\
  forall c, c ∈ best :: rest ->
            session_start c <= session_start (max_by_start best rest).
Proof.
  induction rest as [|x rest IH]; intros best; simpl.
  - split; [apply list_elem_of_here |].
    intros c ->%list_elem_of_singleton. lia.
  - destruct (IH (if session_start best <? session_start x then x else best))
      as [Hin Hmax].
    split.
    + apply elem_of_cons in Hin as [Heq|Hin].
      * rewrite Heq. destruct (session_start best <? session_start x);
          [apply list_elem_of_further |]; apply list_elem_of_here.
      * by do 2 apply list_elem_of_further.
    + intros c Hc.
      assert (Hbest : session_start best <=
                      session_start (max_by_start
                        (if session_start best <? session_start x
                         then x else best) rest) /\
                      session_start x <=
                      session_start (max_by_start
                        (if session_start best <? session_start x
                         then x else best) rest)).
      { pose proof (Hmax _ (list_elem_of_here _ _)) as Hfirst.
        destruct (Z.ltb_spec (session_start best) (session_start x)); lia. }
      apply elem_of_cons in Hc as [->|Hc]; [lia |].
      apply elem_of_cons in Hc as [->|Hc]; [lia |].
      apply Hmax. by apply list_elem_of_further.
Qed.

(** X12: [get_quota_exceeded_details] reports no quota error exactly
    when no stored record has the error type "quota_exceeded"; otherwise
    it reports how many have it, the start time, agent, message, patient
    and scenario of one of them that started last, and as affected agents
    exactly the agent names of those records. *)
Theorem quota_report_spec self :
  let quota_errors :=
    List.filter is_quota_error (odict_values (communications self)) in
  match get_quota_exceeded_details self with
  | NoQuotaErrors =>
      forall c, c ∈ odict_values (communications self) ->
                error_type c <> Some "quota_exceeded"
  | QuotaErrors details =>
      total_quota_errors details = len quota_errors /\
      1 <= total_quota_errors details /\
      (exists latest,
         latest ∈ quota_errors /\
         (forall c, c ∈ quota_errors ->
                    session_start c <= session_start latest) /\
         latest_quota_error details =
           {| quota_timestamp := session_start latest;
              quota_agent_name := agent_name latest;
              quota_error_message := error_message latest;
              quota_patient_id := patient_id latest;
              quota_scenario_type := scenario_type latest |}) /\
      (forall name,
         name ∈ affected_agents details <->
         exists c, c ∈ quota_errors /\ agent_name c = name)
  end.
Proof.
  intros quota_errors. unfold get_quota_exceeded_details.
  fold quota_errors.
  destruct quota_errors as [|first others] eqn:Hquota.
  - intros c Hc Htype.
    assert (Hin : c ∈ quota_errors).
    { apply list_elem_of_In, filter_In. split; [by apply list_elem_of_In |].
      unfold is_quota_error. by apply bool_decide_eq_true_2. }
    subst quota_errors. rewrite Hquota in Hin. by apply elem_of_nil in Hin.
  - cbn [total_quota_errors latest_quota_error affected_agents].
    split; [done |].
    split; [unfold len; simpl length; lia |].
    destruct (max_by_start_spec others first) as [Hin Hmax].
    split; [exists (max_by_start first others); by repeat split |].
    intros name. rewrite elem_of_list_to_set, list_elem_of_In, in_map_iff.
    split; intros (c & Hc1 & Hc2); exists c.
    + split; [by apply list_elem_of_In | done].
    + split; [done | by apply list_elem_of_In].
Qed.

(** ** The communications of an agent and of a patient *)

(** X13: after [start_communication] with a new id, the communications of
    the agent and of the patient named in the call are the former ones
    followed by the new record, and those of every other agent and
    patient are as before. *)
Theorem start_extends_agent_and_patient_lists self comm_id now agent_id
    agent_name agent_specialty framework provider model patient_id
    patient_name scenario_type system_prompt :
  get_communication self comm_id = None ->
  let self' :=
    (start_communication self comm_id now agent_id agent_name
       agent_specialty framework provider model patient_id patient_name
       scenario_type system_prompt).1 in
  let communication :=
    LLMCommunication.mk comm_id agent_id agent_name agent_specialty
      framework provider model now None patient_id patient_name
      scenario_type [] system_prompt 0 0 0 0%float 0 None None [] []
      None None None 0 in
  (forall a,
     get_agent_communications self' a =
       get_agent_communications self a
         ++ (if decide (agent_id = a) then [communication] else [])) /\
  (forall p,
     get_patient_communications self' p =
       get_patient_communications self p
         ++ (if decide (patient_id = Some p) then [communication] else [])).
Proof.
  unfold get_communication, get_agent_communications,
    get_patient_communications.
  intros Hnew. simpl. rewrite odict_set_fresh by done.
  unfold odict_values. rewrite List.map_app. simpl.
  split; intros x; rewrite List.filter_app; simpl; f_equal.
  - destruct (decide (agent_id = x)) as [->|Hne].
    + by rewrite bool_decide_eq_true_2.
    + by rewrite bool_decide_eq_false_2.
  - destruct (decide (patient_id = Some x)) as [->|Hne].
    + by rewrite bool_decide_eq_true_2.
    + by rewrite bool_decide_eq_false_2.
Qed.

Lemma start_extends_agent_and_patient_lists_witness :
  let self := run (new_tracker None) session_done in
  let self' :=
    (start_communication self "comm_2" 1004 "a1" "Dr. X" "cardiology"
       AUTOGEN OPENAI "gpt-4" (Some "p2") None "assessment" None).1 in
  List.map id (get_agent_communications self' "a1") = ["comm_1"; "comm_2"] /\
  List.map id (get_patient_communications self' "p1") = ["comm_1"].
Proof.
  intros self self'.
  assert (Hnew : get_communication self "comm_2" = None)
    by (vm_compute; reflexivity).
  destruct (start_extends_agent_and_patient_lists self "comm_2" 1004 "a1"
              "Dr. X" "cardiology" AUTOGEN OPENAI "gpt-4" (Some "p2") None
              "assessment" None Hnew) as [Hagent Hpatient].
  subst self'. rewrite Hagent, Hpatient. vm_compute. split; reflexivity.
Defined.

(** ** The taxonomy of the classifier *)

(** X14: for every exception the classifier returns the message of the
    exception unchanged and one of seven (type, code) pairs: a fixed code
    with each of the six named types, and the exception's own status
    code, if any, only with [unknown_error]. *)
Theorem classification_is_one_of_seven `{StrLower} exception :
  (parse_openai_error exception).1.1 = exc_message exception /\
  ((parse_openai_error exception).1.2, (parse_openai_error exception).2)
    ∈ classifications exception.
Proof.
  unfold parse_openai_error, classifications.
  repeat match goal with
         | |- context [if ?b then _ else _] => destruct b
         end;
    (split; [reflexivity |]); simpl;
    repeat (apply list_elem_of_here || apply list_elem_of_further).
Qed.

(** X15: with the ASCII lowering the classification does not depend on
    the case of the message: two exceptions whose messages differ only in
    the case of their letters, with the same status code, get the same
    type and code. *)
Theorem classification_ignores_case e1 e2 :
  ascii_lower (exc_message e1) = ascii_lower (exc_message e2) ->
  exc_status_code e1 = exc_status_code e2 ->
  (parse_openai_error e1).1.2 = (parse_openai_error e2).1.2 /\
  (parse_openai_error e1).2 = (parse_openai_error e2).2.
Proof.
  intros Hmsg Hcode. rewrite !parse_by_rules.
  unfold classify_by_rules, str_lower, ascii_StrLower.
  rewrite Hmsg, Hcode.
  by destruct (List.find _ classifier_rules).
Qed.

Lemma classification_ignores_case_witness :
  (parse_openai_error (with_message quota_exception "RATE LIMIT reached")).1.2 =
  (parse_openai_error (with_message quota_exception "rate limit REACHED")).1.2.
Proof.
  apply (classification_ignores_case
           (with_message quota_exception "RATE LIMIT reached")
           (with_message quota_exception "rate limit REACHED"));
    vm_compute; reflexivity.
Defined.

(** ** The wrappers, call by call *)

Lemma calculate_cost_zero_tokens c :
  total_input_tokens c = 0 -> total_output_tokens c = 0 ->
  _calculate_cost c = Ok 0%float.
Proof.
  intros Hin Hout. unfold _calculate_cost. rewrite Hin, Hout.
  change (py_truediv 0 1000) with (Ok 0%float : result float).
  destruct (provider c); [| reflexivity..].
  change (odict_get OPENAI pricing)
    with (Some [ ("gpt-4"%string, {| input := 0.03; output := 0.06 |});
                 ("gpt-4-turbo"%string, {| input := 0.01; output := 0.03 |});
                 ("gpt-3.5-turbo"%string,
                  {| input := 0.0015; output := 0.002 |}) ]).
  cbn [odict_get].
  repeat match goal with
         | |- context [decide (model c = ?m)] => destruct (decide (model c = m))
         end; reflexivity.
Qed.

(** A completion of a record with messages whose cost is computed. *)
Lemma complete_finalises self now comm_id final_response response_time_ms
    confidence_score error_message error_type error_code retry_count c cost :
  get_communication self comm_id = Some c ->
  messages c <> [] ->
  _calculate_cost c = Ok cost ->
  complete_communication self now comm_id final_response response_time_ms
    confidence_score error_message error_type error_code retry_count =
  {| completed_tracker :=
       {| communications :=
            odict_set comm_id
              (set_cost_estimate cost
                 (set_outcome now final_response response_time_ms
                    confidence_score error_message error_type error_code
                    retry_count c))
              (communications self);
          active_sessions := delete (agent_id c) (active_sessions self);
          webhook_url := webhook_url self |};
     webhooks_submitted :=
       match webhook_url self with
       | Some url => if String.eqb url "" then [] else [id c]
       | None => []
       end;
     raised := None |}.
Proof.
  unfold get_communication, complete_communication. intros -> Hmsgs Hcost.
  destruct (messages c) eqn:Hm; [done |].
  change (_calculate_cost
            (set_outcome now final_response response_time_ms confidence_score
               error_message error_type error_code retry_count c))
    with (_calculate_cost c).
  rewrite Hcost. cbn [agent_id set_outcome set_cost_estimate id].
  destruct (active_sessions self !! agent_id c) eqn:Ha; [done |].
  by rewrite delete_id.
Qed.

(** A completion of a record with messages, whatever the cost
    computation does: the outcome is stored, and the only exception is
    the overflow. *)
Lemma complete_stores_outcome self now comm_id final_response
    response_time_ms confidence_score error_message error_type error_code
    retry_count c :
  get_communication self comm_id = Some c ->
  messages c <> [] ->
  let done :=
    complete_communication self now comm_id final_response response_time_ms
      confidence_score error_message error_type error_code retry_count in
  (exists cost,
     get_communication (completed_tracker done) comm_id =
       Some (set_cost_estimate cost
               (set_outcome now final_response response_time_ms
                  confidence_score error_message error_type error_code
                  retry_count c))) /\
  (raised done = None \/ raised done = Some OverflowError).
Proof.
  unfold get_communication, complete_communication. intros -> Hmsgs.
  destruct (messages c) eqn:Hm; [done |].
  destruct (_calculate_cost _) as [cost|e] eqn:Hcost; simpl.
  - split; [| by left]. exists cost. apply odict_get_set_eq.
  - apply calculate_cost_raises in Hcost as [-> _].
    split; [| by right]. exists (cost_estimate c).
    rewrite odict_get_set_eq. by destruct c.
Qed.

Lemma complete_frame self now comm_id final_response response_time_ms
    confidence_score error_message error_type error_code retry_count k :
  k <> comm_id ->
  get_communication
    (completed_tracker
       (complete_communication self now comm_id final_response
          response_time_ms confidence_score error_message error_type
          error_code retry_count)) k =
  get_communication self k.
Proof.
  unfold get_communication, complete_communication. intros Hne.
  destruct (odict_get comm_id (communications self)) as [c|]; [| done].
  destruct (messages c); simpl.
  - apply odict_get_del_ne. congruence.
  - destruct (_calculate_cost _); simpl; apply odict_get_set_ne; congruence.
Qed.

(** The loop that logs the incoming messages: it appends one message per
    chat message, without tokens, and touches nothing else. *)
Lemma log_messages_effect env comm_id chat : forall self i c,
  get_communication self comm_id = Some c ->
  exists c',
    get_communication (log_messages self env comm_id i chat) comm_id =
      Some c' /\
    List.map (fun m => (LLMMessage.role m, LLMMessage.content m))
             (messages c') =
      List.map (fun m => (LLMMessage.role m, LLMMessage.content m))
               (messages c)
        ++ List.map (fun m => (chat_role m, chat_content m)) chat /\
    total_input_tokens c' = total_input_tokens c /\
    total_output_tokens c' = total_output_tokens c /\
    total_tokens c' = total_tokens c /\
    session_end c' = session_end c /\
    agent_id c' = agent_id c /\
    same_outcome c' c /\
    (forall k, k <> comm_id ->
               get_communication (log_messages self env comm_id i chat) k =
               get_communication self k) /\
    active_sessions (log_messages self env comm_id i chat) =
      active_sessions self /\
    webhook_url (log_messages self env comm_id i chat) = webhook_url self.
Proof.
  induction chat as [|msg rest IH]; intros self i c Hget; simpl.
  - exists c. rewrite app_nil_r. by repeat split.
  - pose proof (add_message_lookup self (env_message_id env i)
                  (env_now env (S i)) comm_id (chat_role msg)
                  (chat_content msg) None None None c Hget) as Hstep.
    destruct (add_message_frame self (env_message_id env i)
                (env_now env (S i)) comm_id (chat_role msg)
                (chat_content msg) None None None c Hget)
      as (Hothers & Hidx & Hurl & _).
    destruct (IH _ (S i) _ Hstep)
      as (c' & Hget' & Hmsgs & Hin & Hout & Htot & Hend & Hagent & Hsame
          & Hothers' & Hidx' & Hurl').
    destruct (record_message_fields
                (LLMMessage.mk (env_message_id env i) (env_now env (S i))
                   (chat_role msg) (chat_content msg) None None None) c)
      as (Hm1 & Hend1 & _ & Hagent1 & Hin1 & Hout1 & _).
    pose proof (record_message_same_outcome
                  (LLMMessage.mk (env_message_id env i) (env_now env (S i))
                     (chat_role msg) (chat_content msg) None None None) c)
      as Hsame1.
    cbn [LLMMessage.tokens] in Hin1, Hout1.
    exists c'. split; [exact Hget' |].
    split; [rewrite Hmsgs, Hm1, List.map_app; simpl; by rewrite <- app_assoc |].
    split; [lia |]. split; [lia |]. split; [by rewrite Htot |].
    split; [congruence |]. split; [congruence |]. split.
    { unfold same_outcome in *.
      destruct Hsame as (? & ? & ? & ? & ? & ? & ? & ? & ?).
      destruct Hsame1 as (? & ? & ? & ? & ? & ? & ? & ? & ?).
      repeat split; congruence. }
    split; [intros k Hk; rewrite Hothers' by done; by apply Hothers |].
    split; congruence.
Qed.

(** What a reply tracked by the AutoGen wrapper leaves behind. *)
Lemma autogen_reply_effect `{StrLower} self env
    agent_id agent_name specialty model system_message messages
    sender_history reply :
  let chat :=
    match messages with
    | Some messages => messages
    | None => default [] sender_history
    end in
  let response_content :=
    match reply with
    | ReplyStr s => s
    | ReplyDict d => default "" (d !! "content")
    | ReplyOther => ""
    end in
  let r :=
    tracked_generate_reply self env agent_id agent_name specialty model
      system_message messages sender_history (Ok reply) in
  tracked_outcome r = Ok reply /\
  active_sessions (tracked_tracker r) !! agent_id = None /\
  tracked_webhooks r =
    match webhook_url self with
    | Some url => if String.eqb url "" then [] else [env_comm_id env]
    | None => []
    end /\
  (forall k, k <> env_comm_id env ->
             get_communication (tracked_tracker r) k =
             get_communication self k) /\
  exists c,
    get_communication (tracked_tracker r) (env_comm_id env) = Some c /\
    List.map (fun m => (LLMMessage.role m, LLMMessage.content m))
             (LLMCommunication.messages c) =
      List.map (fun m => (chat_role m, chat_content m)) chat
        ++ [("assistant", response_content)] /\
    total_input_tokens c = 0 /\ total_output_tokens c = 0 /\
    total_tokens c = 0 /\ cost_estimate c = 0%float /\
    session_end c <> None /\
    final_response c = Some response_content /\
    error_message c = None /\ error_type c = None.
Proof.
  intros chat response_content r. subst r. unfold tracked_generate_reply.
  fold chat. cbn [start_communication].
  match goal with
  | |- context [log_messages ?st env ?cid 0 chat] =>
      set (started := st);
      assert (Hget0 : get_communication started cid =
                      Some (LLMCommunication.mk cid agent_id agent_name
                              specialty AUTOGEN OPENAI model (env_now env 0)
                              None None None "assessment" [] system_message
                              0 0 0 0%float 0 None None [] [] None None None
                              0))
        by apply odict_get_set_eq;
      destruct (log_messages_effect env cid chat started 0%nat _ Hget0)
        as (c1 & Hget1 & Hmsgs1 & Hin1 & Hout1 & Htot1 & Hend1 & Hagent1
            & Hsame1 & Hothers1 & Hidx1 & Hurl1);
      generalize dependent (log_messages started env cid 0 chat)
  end.
  intros logged Hget1 Hothers1 Hidx1 Hurl1.
  replace (match reply with
           | ReplyStr s => s
           | ReplyDict d => match d !! "content" with
                            | Some s => s
                            | None => ""
                            end
           | ReplyOther => ""
           end) with response_content
    by (subst response_content; destruct reply as [| d |]; try done;
        by destruct (d !! "content")).
  set (reply_message :=
         LLMMessage.mk (env_message_id env (length chat))
           (env_now env (S (length chat))) "assistant" response_content
           None None None).
  pose proof (add_message_lookup logged (env_message_id env (length chat))
                (env_now env (S (length chat))) (env_comm_id env) "assistant"
                response_content None None None c1 Hget1) as Hget2.
  destruct (add_message_frame logged (env_message_id env (length chat))
              (env_now env (S (length chat))) (env_comm_id env) "assistant"
              response_content None None None c1 Hget1)
    as (Hothers2 & Hidx2 & Hurl2 & _).
  fold reply_message in Hget2.
  destruct (record_message_fields reply_message c1)
    as (Hmsgs2 & Hend2 & _ & Hagent2 & Hin2 & Hout2 & Htot2).
  cbn [LLMMessage.tokens reply_message] in Hin2, Hout2.
  simpl in Hin1, Hout1, Htot1, Hagent1, Hmsgs1, Hend1.
  assert (Hzero : total_input_tokens (record_message reply_message c1) = 0 /\
                  total_output_tokens (record_message reply_message c1) = 0)
    by lia.
  destruct Hzero as [Hin Hout].
  assert (Hne : LLMCommunication.messages (record_message reply_message c1)
                <> [])
    by (rewrite Hmsgs2; by destruct (LLMCommunication.messages c1)).
  generalize dependent
    (add_message logged (env_message_id env (length chat))
       (env_now env (S (length chat))) (env_comm_id env) "assistant"
       response_content None None None).1.
  intros replied Hget2 Hothers2 Hidx2 Hurl2.
  rewrite (complete_finalises replied _ (env_comm_id env) _ _ _ _ _ _ _ _ _
             Hget2 Hne (calculate_cost_zero_tokens _ Hin Hout)).
  cbn [raised completed_tracker webhooks_submitted tracked_outcome
       tracked_tracker tracked_webhooks active_sessions communications].
  split; [done |].
  split; [rewrite Hagent2, Hagent1; apply lookup_delete_eq |].
  split.
  { rewrite Hurl2, Hurl1. subst started. cbn [webhook_url].
    destruct (webhook_url self) as [url|]; [| done].
    destruct (String.eqb url ""); [done |].
    destruct (record_message_same_outcome reply_message c1) as (-> & _).
    by destruct Hsame1 as (-> & _). }
  split.
  { intros k Hk. unfold get_communication at 1. cbn [communications].
    rewrite odict_get_set_ne by congruence.
    change (odict_get k (communications replied))
      with (get_communication replied k).
    rewrite Hothers2, Hothers1 by done. subst started.
    unfold get_communication. cbn [communications].
    apply odict_get_set_ne. congruence. }
  eexists. unfold get_communication. cbn [communications].
  split; [apply odict_get_set_eq |].
  cbn [LLMCommunication.messages set_cost_estimate set_outcome
       total_input_tokens total_output_tokens total_tokens cost_estimate
       session_end final_response error_message error_type].
  split; [rewrite Hmsgs2, List.map_app, Hmsgs1; done |].
  split; [exact Hin |]. split; [exact Hout |].
  split; [rewrite Htot2; [lia | rewrite Htot1, Hin1, Hout1; done] |].
  repeat split; done.
Qed.

(** X16: a reply tracked by the AutoGen wrapper is always recorded and
    completed: the record has the incoming messages followed by the reply
    as an assistant message, no error, and, since the wrapper passes no
    token count, zero tokens and a zero cost whatever the model; the
    agent's index entry is removed, the webhook is submitted when one is
    configured, and the caller gets the reply. *)
Theorem autogen_reply_is_recorded_without_tokens `{StrLower} self env
    agent_id agent_name specialty model system_message messages
    sender_history reply :
  let chat :=
    match messages with
    | Some messages => messages
    | None => default [] sender_history
    end in
  let response_content :=
    match reply with
    | ReplyStr s => s
    | ReplyDict d => default "" (d !! "content")
    | ReplyOther => ""
    end in
  let r :=
    tracked_generate_reply self env agent_id agent_name specialty model
      system_message messages sender_history (Ok reply) in
  tracked_outcome r = Ok reply /\
  active_sessions (tracked_tracker r) !! agent_id = None /\
  tracked_webhooks r =
    match webhook_url self with
    | Some url => if String.eqb url "" then [] else [env_comm_id env]
    | None => []
    end /\
  exists c,
    get_communication (tracked_tracker r) (env_comm_id env) = Some c /\
    List.map (fun m => (LLMMessage.role m, LLMMessage.content m))
             (LLMCommunication.messages c) =
      List.map (fun m => (chat_role m, chat_content m)) chat
        ++ [("assistant", response_content)] /\
    total_input_tokens c = 0 /\ total_output_tokens c = 0 /\
    total_tokens c = 0 /\ cost_estimate c = 0%float /\
    session_end c <> None /\
    final_response c = Some response_content /\
    error_message c = None /\ error_type c = None.
Proof.
  intros chat response_content r.
  destruct (autogen_reply_effect self env agent_id agent_name specialty model
              system_message messages sender_history reply)
    as (Hout & Hidx & Hhooks & _ & Hrecord).
  by repeat split.
Qed.



(** The start and the logging of the prompt in the CrewAI wrapper. *)
Lemma crewai_prompt_logged self env agent_id agent_name specialty model
    prompt :
  let started :=
    (start_communication self (env_comm_id env) (env_now env 0) agent_id
       agent_name specialty CREWAI OPENAI model None None "assessment"
       None).1 in
  let prompted :=
    (add_message started (env_message_id env 0) (env_now env 1)
       (env_comm_id env) "user" prompt (Some (_estimate_tokens prompt)) None
       None).1 in
  (forall k, k <> env_comm_id env ->
             get_communication prompted k = get_communication self k) /\
  active_sessions prompted = <[agent_id := env_comm_id env]> (active_sessions self) /\
  webhook_url prompted = webhook_url self /\
  exists c,
    get_communication prompted (env_comm_id env) = Some c /\
    messages c =
      [LLMMessage.mk (env_message_id env 0) (env_now env 1) "user" prompt
         (Some (_estimate_tokens prompt)) None None] /\
    total_input_tokens c = _estimate_tokens prompt /\
    total_output_tokens c = 0 /\
    total_tokens c = _estimate_tokens prompt /\
    id c = env_comm_id env /\ LLMCommunication.agent_id c = agent_id /\
    LLMCommunication.agent_name c = agent_name.
Proof.
  intros started prompted.
  assert (Hget0 : get_communication started (env_comm_id env) =
                  Some (LLMCommunication.mk (env_comm_id env) agent_id
                          agent_name specialty CREWAI OPENAI model
                          (env_now env 0) None None None "assessment" [] None
                          0 0 0 0%float 0 None None [] [] None None None 0))
    by apply odict_get_set_eq.
  pose proof (add_message_lookup started (env_message_id env 0)
                (env_now env 1) (env_comm_id env) "user" prompt
                (Some (_estimate_tokens prompt)) None None _ Hget0) as Hget1.
  destruct (add_message_frame started (env_message_id env 0) (env_now env 1)
              (env_comm_id env) "user" prompt
              (Some (_estimate_tokens prompt)) None None _ Hget0)
    as (Hothers & Hidx & Hurl & _).
  fold prompted in Hget1, Hothers, Hidx, Hurl.
  split.
  { intros k Hk. rewrite Hothers by done. subst started.
    unfold get_communication. cbn [start_communication fst communications].
    apply odict_get_set_ne. congruence. }
  split; [by rewrite Hidx |]. split; [by rewrite Hurl |].
  eexists. split; [exact Hget1 |].
  match goal with
  | |- context [record_message ?m ?c0] =>
      destruct (record_message_fields m c0)
        as (Hmsgs & _ & _ & Hagent & Hin & Hout & Htot);
      destruct (record_message_same_outcome m c0) as (Hid & Hname & _)
  end.
  cbn [LLMMessage.tokens LLMMessage.role String.eqb Ascii.eqb Bool.eqb orb]
    in Hin, Hout.
  rewrite Hmsgs, Hin, Hout, Htot, Hin, Hout, Hid, Hagent, Hname by done.
  cbn. repeat split; lia.
Qed.


Lemma complete_cost_raises self now comm_id final_response response_time_ms
    confidence_score error_message error_type error_code retry_count c e :
  get_communication self comm_id = Some c ->
  messages c <> [] ->
  _calculate_cost c = Raise e ->
  complete_communication self now comm_id final_response response_time_ms
    confidence_score error_message error_type error_code retry_count =
  {| completed_tracker :=
       {| communications :=
            odict_set comm_id
              (set_outcome now final_response response_time_ms
                 confidence_score error_message error_type error_code
                 retry_count c)
              (communications self);
          active_sessions := active_sessions self;
          webhook_url := webhook_url self |};
     webhooks_submitted := [];
     raised := Some e |}.
Proof.
  unfold get_communication, complete_communication. intros -> Hmsgs Hcost.
  destruct (messages c) eqn:Hm; [done |].
  change (_calculate_cost
            (set_outcome now final_response response_time_ms confidence_score
               error_message error_type error_code retry_count c))
    with (_calculate_cost c).
  by rewrite Hcost.
Qed.

(** X19: a call tracked by the CrewAI wrapper that returns is recorded
    with two messages, the prompt as user and the result as assistant,
    each with its estimated tokens (at least one), which are the input
    and output totals; the record is completed, and unless the cost
    computation overflows the caller gets the result, the record has the
    result as [final_response] and no error, and the agent's index entry
    is removed. *)
Theorem crewai_call_is_recorded_with_estimates `{StrLower} self env agent_id
    agent_name specialty model prompt response :
  let r :=
    tracked_call self env agent_id agent_name specialty model prompt
      (Ok response) in
  (tracked_outcome r = Ok response \/
   tracked_outcome r = Raise OverflowError) /\
  exists c,
    get_communication (tracked_tracker r) (env_comm_id env) = Some c /\
    List.map (fun m => (LLMMessage.role m, LLMMessage.content m,
                        LLMMessage.tokens m))
             (messages c) =
      [ ("user", prompt, Some (_estimate_tokens prompt));
        ("assistant", response, Some (_estimate_tokens response)) ] /\
    total_input_tokens c = _estimate_tokens prompt /\
    total_output_tokens c = _estimate_tokens response /\
    total_tokens c = _estimate_tokens prompt + _estimate_tokens response /\
    1 <= total_input_tokens c /\ 1 <= total_output_tokens c /\
    session_end c <> None /\
    (tracked_outcome r = Ok response ->
     final_response c = Some response /\ error_message c = None /\
     active_sessions (tracked_tracker r) !! agent_id = None).
Proof.
  intros r. subst r. unfold tracked_call. cbn [start_communication].
  destruct (crewai_prompt_logged self env agent_id agent_name specialty model
              prompt)
    as (_ & _ & _ & c1 & Hget1 & Hmsgs1 & Hin1 & Hout1 & Htot1 & _ & Hagent1
        & _).
  cbv zeta in Hget1. cbn [start_communication fst] in Hget1.
  match type of Hget1 with
  | get_communication ?st _ = _ => generalize dependent st
  end.
  intros prompted Hget1.
  set (answer :=
         LLMMessage.mk (env_message_id env 1) (env_now env 2) "assistant"
           response (Some (_estimate_tokens response)) None None).
  pose proof (add_message_lookup prompted (env_message_id env 1)
                (env_now env 2) (env_comm_id env) "assistant" response
                (Some (_estimate_tokens response)) None None c1 Hget1)
    as Hget2.
  fold answer in Hget2.
  destruct (record_message_fields answer c1)
    as (Hmsgs2 & _ & _ & Hagent2 & Hin2 & Hout2 & Htot2).
  cbn [LLMMessage.tokens LLMMessage.role answer String.eqb Ascii.eqb Bool.eqb
       orb] in Hin2, Hout2.
  assert (Hne : messages (record_message answer c1) <> [])
    by (rewrite Hmsgs2, Hmsgs1; discriminate).
  assert (Hest : 1 <= _estimate_tokens prompt /\
                 1 <= _estimate_tokens response)
    by (unfold _estimate_tokens; lia).
  assert (Hfields :
            List.map (fun m => (LLMMessage.role m, LLMMessage.content m,
                                LLMMessage.tokens m))
                     (messages (record_message answer c1)) =
              [ ("user", prompt, Some (_estimate_tokens prompt));
                ("assistant", response, Some (_estimate_tokens response)) ] /\
            total_input_tokens (record_message answer c1) =
              _estimate_tokens prompt /\
            total_output_tokens (record_message answer c1) =
              _estimate_tokens response /\
            total_tokens (record_message answer c1) =
              _estimate_tokens prompt + _estimate_tokens response).
  { rewrite Hmsgs2, Hmsgs1, Htot2, Hin2, Hout2 by lia. simpl.
    repeat split; lia. }
  destruct Hfields as (Hf1 & Hf2 & Hf3 & Hf4).
  generalize dependent
    (add_message prompted (env_message_id env 1) (env_now env 2)
       (env_comm_id env) "assistant" response
       (Some (_estimate_tokens response)) None None).1.
  intros answered Hget2.
  destruct (_calculate_cost (record_message answer c1)) as [cost|e'] eqn:Hcost.
  - rewrite (complete_finalises answered _ (env_comm_id env) _ _ _ _ _ _ _ _
               _ Hget2 Hne Hcost).
    cbn [raised completed_tracker tracked_outcome tracked_tracker
         active_sessions communications].
    split; [by left |]. eexists. unfold get_communication.
    cbn [communications]. split; [apply odict_get_set_eq |].
    cbn [messages total_input_tokens total_output_tokens total_tokens
         session_end final_response LLMCommunication.error_message
         set_cost_estimate set_outcome].
    rewrite Hf1, Hf2, Hf3, Hf4.
    repeat split; try done; try lia.
    rewrite Hagent2, Hagent1. apply lookup_delete_eq.
  - rewrite (complete_cost_raises answered _ (env_comm_id env) _ _ _ _ _ _ _
               _ _ Hget2 Hne Hcost).
    cbn [raised completed_tracker tracked_outcome tracked_tracker].
    apply calculate_cost_raises in Hcost as [-> _].
    unfold crewai_on_error.
    destruct (parse_openai_error OverflowError)
      as [[error_message error_type] error_code].
    match goal with
    | |- context [complete_communication ?st ?now ?k ?fr ?rt ?cs ?em ?et ?ec
                    ?rc] =>
        destruct (complete_stores_outcome st now k fr rt cs em et ec rc
                    (set_outcome (env_now env 3) response
                       (env_elapsed_ms env 0) None None None None 0
                       (record_message answer c1)))
          as [[cost Hstored] Hraised];
          [apply odict_get_set_eq | exact Hne |]
    end.
    cbn [tracked_outcome tracked_tracker].
    split; [right; by destruct Hraised as [-> | ->] |].
    eexists. split; [exact Hstored |].
    cbn [messages total_input_tokens total_output_tokens total_tokens
         session_end set_cost_estimate set_outcome].
    rewrite Hf1, Hf2, Hf3, Hf4.
    split; [done |]. split; [done |]. split; [done |]. split; [done |].
    split; [lia |]. split; [lia |]. split; [done |].
    destruct Hraised as [-> | ->]; discriminate.
Qed.

(** ** Quota failures through the wrappers *)





(** ** The end of a scenario *)

(** X21: the session that [execute_autogen_scenario] starts for an agent
    is never kept as a completed record.  When the wrapped agent replied
    in between, the wrapper removed the agent's index entry, so the
    closing block finds no session and changes nothing, and the
    scenario's record stays open and without messages; when the agent
    did not reply, the closing block completes the scenario's record,
    which has no message and is discarded, while the index entry stays. *)
Theorem scenario_session_is_never_completed `{StrLower} self outer_id now
    agent_id agent_name agent_specialty framework provider model patient_id
    patient_name scenario_type system_prompt :
  outer_id <> "" ->
  let started :=
    (start_communication self outer_id now agent_id agent_name
       agent_specialty framework provider model patient_id patient_name
       scenario_type system_prompt).1 in
  let outer :=
    LLMCommunication.mk outer_id agent_id agent_name agent_specialty
      framework provider model now None patient_id patient_name
      scenario_type [] system_prompt 0 0 0 0%float 0 None None [] []
      None None None 0 in
  (forall env name specialty model' system_message messages sender_history
          reply now' error,
     env_comm_id env <> outer_id ->
     let r :=
       tracked_generate_reply started env agent_id name specialty model'
         system_message messages sender_history (Ok reply) in
     end_session_on_error (tracked_tracker r) now' agent_id error =
       {| completed_tracker := tracked_tracker r; webhooks_submitted := [];
          raised := None |} /\
     get_communication (tracked_tracker r) outer_id = Some outer) /\
  (forall now' error,
     let ended := end_session_on_error started now' agent_id error in
     raised ended = None /\ webhooks_submitted ended = [] /\
     get_communication (completed_tracker ended) outer_id = None /\
     active_sessions (completed_tracker ended) !! agent_id = Some outer_id).
Proof.
  intros Houter started outer.
  assert (Hget : get_communication started outer_id = Some outer)
    by apply odict_get_set_eq.
  split.
  - intros env name specialty model' system_message messages sender_history
      reply now' error Hfresh r.
    destruct (autogen_reply_effect started env agent_id name specialty model'
                system_message messages sender_history reply)
      as (_ & Hidx & _ & Hothers & _).
    fold r in Hidx, Hothers.
    split; [unfold end_session_on_error; by rewrite Hidx |].
    rewrite Hothers by congruence. exact Hget.
  - intros now' error ended. subst ended. unfold end_session_on_error.
    assert (Hidx : active_sessions started !! agent_id = Some outer_id)
      by apply lookup_insert_eq.
    rewrite Hidx.
    destruct (String.eqb_spec outer_id "") as [Heq|_]; [done |].
    rewrite (complete_empty started now' outer_id "" 0 None (Some error) None
               None 0 outer Hget eq_refl).
    cbn [raised webhooks_submitted completed_tracker active_sessions].
    split; [done |]. split; [done |].
    split; [apply odict_get_del_eq | exact Hidx].
Qed.

Lemma scenario_session_is_never_completed_witness :
  let started :=
    (start_communication (new_tracker None) "comm_1" 1000 "s1-cardiologist"
       "cardiologist" "general" AUTOGEN OPENAI "gpt-4" (Some "p1") None
       "comprehensive" None).1 in
  let r :=
    tracked_generate_reply started sample_env "s1-cardiologist"
      "cardiologist" "general" "gpt-4" None
      (Some [ {| chat_role := "user"; chat_content := "assess patient" |} ])
      None (Ok (ReplyStr "stable")) in
  (fun c => (session_end c, LLMCommunication.messages c))
    <$> get_communication
          (completed_tracker
             (end_session_on_error (tracked_tracker r) 3000 "s1-cardiologist"
                "failed")) "comm_1" = Some (None, []).
Proof.
  intros started r.
  assert (Houter : "comm_1"%string <> ""%string) by discriminate.
  destruct (scenario_session_is_never_completed (new_tracker None) "comm_1"
              1000 "s1-cardiologist" "cardiologist" "general" AUTOGEN OPENAI
              "gpt-4" (Some "p1") None "comprehensive" None Houter)
    as [Hreplied _].
  assert (Hfresh : env_comm_id sample_env <> "comm_1") by discriminate.
  destruct (Hreplied sample_env "cardiologist" "general" "gpt-4" None
              (Some [ {| chat_role := "user";
                         chat_content := "assess patient" |} ])
              None (ReplyStr "stable") 3000 "failed" Hfresh)
    as [Hend Hkept].
  fold started in Hend, Hkept. fold r in Hend, Hkept.
  rewrite Hend. cbn [completed_tracker]. rewrite Hkept. reflexivity.
Defined.
